(** * DeepVO: the curriculum scheduler and the epoch loop controller

  A shallow embedding of [curriculum.py] (class [Curriculum]) and of
  [Trainer.py] (class [Trainer]), with the properties of their control
  flow: sequence-length growth, truncation windows, optimizer steps,
  hidden-state detach and reset, and the life of the loss accumulators. *)

From Stdlib Require Import ZArith List Bool String Lia.
From Stdlib Require Import Floats.PrimFloat.
Import ListNotations.

Set Warnings "-inexact-float".
Local Open Scope Z_scope.

(** ** Exceptions raised by the two classes *)

Inductive exn : Type :=
| NameError (name : string)   (* a bare identifier bound in no scope *)
| ValueError                  (* numpy: [low >= high] in [randint] *)
| DatasetError.               (* [dataset[i]] raised *)

(* ================================================================= *)
(** ** curriculum.py *)

Module Curriculum.

(** The instance fields set by [__init__]. Losses are Python floats, that
    is binary64 values; lengths are Python integers. *)
Record t : Type := mk {
  good_loss : float;
  min_frames : Z;
  max_frames : Z;
  current_loss : float;
  cur_seqlen : Z
}.

Definition __init__ (good_loss : float) (min_frames max_frames : Z) : t :=
  {| good_loss := good_loss;
     min_frames := min_frames;
     max_frames := max_frames;
     current_loss := infinity;
     cur_seqlen := min_frames |}.

(** [Curriculum()] with the default arguments of the constructor. *)
Definition default : t := __init__ 0.009%float 5 1095.

Definition with_cur_seqlen (self : t) (n : Z) : t :=
  {| good_loss := good_loss self;
     min_frames := min_frames self;
     max_frames := max_frames self;
     current_loss := current_loss self;
     cur_seqlen := n |}.

(** [int(np.ceil(n * 1.5))]. For [|n| <= 2^51] the product [n * 1.5] is
    exact in binary64, so the result is the integer ceiling of [3n/2]. *)
Definition ceil_1_5 (n : Z) : Z := (3 * n + 1) / 2.

(** [np.random.randint(low, high)]: an integer of the half-open range
    [[low, high)], chosen by the entropy [u] of the generator; numpy
    raises [ValueError] when the range is empty. *)
Definition randint (low high : Z) (u : Z) : exn + Z :=
  if low <? high then inr (low + u mod (high - low)) else inl ValueError.

(** Names bound at module level in curriculum.py are [np] and
    [Curriculum]; the method has no local or global called [max_frames]. *)
Definition module_scope (name : string) : option Z := None.

(** Line 31: [self.cur_seqlen += np.random.randint(...)]. *)
Definition grow (self : t) (u : Z) : exn + t :=
  match randint (cur_seqlen self) (ceil_1_5 (cur_seqlen self)) u with
  | inl e => inl e
  | inr r => inr (with_cur_seqlen self (cur_seqlen self + r))
  end.

(** Lines 32-33: [if self.cur_seqlen > max_frames: self.cur_seqlen =
    max_frames], with the bare name [max_frames] looked up in the scopes of
    the method. The object is returned with the exception, if any. *)
Definition clamp (self : t) : t * option exn :=
  match module_scope "max_frames" with
  | None => (self, Some (NameError "max_frames"))
  | Some m =>
      if cur_seqlen self >? m then (with_cur_seqlen self m, None)
      else (self, None)
  end.

(** [step(self, cur_loss)]: the object after the call, and the exception
    the call raised, if it raised one. *)
Definition step (self : t) (cur_loss : float) (u : Z) : t * option exn :=
  if PrimFloat.leb cur_loss (good_loss self) then
    match grow self u with
    | inl e => (self, Some e)
    | inr grown => clamp grown
    end
  else (self, None).

End Curriculum.

(* ================================================================= *)
(** ** Trainer.py *)

Module Trainer.

(** What the trainer consumes from torch: scalar loss tensors (the
    [zeros(1)] accumulators and the values of the loss function) with their
    addition and multiplication, and the tensors of inputs, predictions and
    ground truth. Rounding is left to the instance. *)
Class Tensors : Type := {
  Loss : Type;
  Tensor : Type;
  zero : Loss;
  add : Loss -> Loss -> Loss;
  mul : Loss -> Loss -> Loss
}.

Section Events.
Context `{Tensors}.

(** A row of the predicted trajectory: sequence id, the two frame indices,
    predicted rotation and predicted translation. *)
Definition Row : Type := (Z * Z * Z * Tensor * Tensor)%type.

(** The calls the trainer makes on its collaborators (model, optimizer,
    standard output, file system), in the order they are made. *)
Inductive Event : Type :=
| ModelTrain                                   (* model.train() *)
| ModelEval                                    (* model.eval() *)
| ZeroGrad                                     (* model.zero_grad() *)
| Forward (inp : Tensor)                       (* model.forward(inp) *)
| Backward (l : Loss)                          (* loss.backward() *)
| ClipGradNorm (c : Loss)                      (* clip_grad_norm_(..., c) *)
| OptimizerStep                                (* optimizer.step() *)
| DetachHidden                                 (* model.detach_LSTM_hidden() *)
| ResetHidden                                  (* model.reset_LSTM_hidden() *)
| WriteRotTrans (rot trans : list Loss)        (* tqdm.write of the two means *)
| WriteTotal (total : list Loss)               (* tqdm.write of the total mean *)
| PrintMaxEpochs                               (* print('Max epochs elapsed! ...') *)
| SaveTxt (expDir : string) (seq epoch : Z) (traj : list Row). (* np.savetxt *)

End Events.

(** The network and the loss of torch. The model and the optimizer are
    objects mutated by the calls above, so what they answer depends on the
    calls made so far: [forward] and the norms of the parameters read the
    history. The network has at least one parameter tensor. *)
Class Network `{Tensors} : Type := {
  MSELoss_sum : Tensor -> Tensor -> Loss;      (* nn.MSELoss(reduction = 'sum') *)
  forward : list Event -> Tensor -> Tensor * Tensor;
  param_norms : list Event -> Loss * list Loss (* W.norm(2) for W in parameters() *)
}.

Section Model.
Context `{Network}.

(** One item of a dataset, as unpacked at lines 101 and 208. *)
Record Sample : Type := {
  inp : Tensor;
  rot_gt : Tensor;
  trans_gt : Tensor;
  seq : Z;
  frame1 : Z;
  frame2 : Z;
  endOfSeq : bool
}.

(** The dataset class (KITTIDataset) is imported by Trainer.py and is not
    among the sources: a dataset is a parameter of the trainer, taken by what
    the trainer uses of it, its length and its item at an index. [None]
    stands for an index at which [dataset[i]] raises. *)
Record Dataset : Type := {
  len : nat;
  getitem : nat -> option Sample
}.

(** A dataset that holds the items of a list, and raises past its end. *)
Definition dataset_of_list (l : list Sample) : Dataset :=
  {| len := List.length l; getitem := nth_error l |}.

(** The command-line arguments the trainer reads. *)
Record Args : Type := {
  nepochs : Z;
  debug : bool;
  debugIters : Z;
  trainBatch : Z;
  gradClip : option Loss;
  expDir : string
}.

(** The instance fields. [world] stands for the model and optimizer objects
    (and the output sinks): the calls made on them so far. *)
Record t : Type := {
  args : Args;
  maxEpochs : Z;
  curEpoch : Z;
  train_set : Dataset;
  val_set : Dataset;
  loss_fn : Tensor -> Tensor -> Loss;
  loss_rot : Loss;
  loss_trans : Loss;
  loss : Loss;
  scaleFactor : Loss;
  weightRegularizer : option Loss;
  iters : Z;
  world : list Event
}.

Definition with_world (self : t) (w : list Event) : t :=
  {| args := args self; maxEpochs := maxEpochs self; curEpoch := curEpoch self;
     train_set := train_set self; val_set := val_set self;
     loss_fn := loss_fn self;
     loss_rot := loss_rot self; loss_trans := loss_trans self; loss := loss self;
     scaleFactor := scaleFactor self;
     weightRegularizer := weightRegularizer self;
     iters := iters self; world := w |}.

Definition with_losses (self : t) (r tr l : Loss) : t :=
  {| args := args self; maxEpochs := maxEpochs self; curEpoch := curEpoch self;
     train_set := train_set self; val_set := val_set self;
     loss_fn := loss_fn self;
     loss_rot := r; loss_trans := tr; loss := l;
     scaleFactor := scaleFactor self;
     weightRegularizer := weightRegularizer self;
     iters := iters self; world := world self |}.

Definition with_iters (self : t) (n : Z) : t :=
  {| args := args self; maxEpochs := maxEpochs self; curEpoch := curEpoch self;
     train_set := train_set self; val_set := val_set self;
     loss_fn := loss_fn self;
     loss_rot := loss_rot self; loss_trans := loss_trans self; loss := loss self;
     scaleFactor := scaleFactor self;
     weightRegularizer := weightRegularizer self;
     iters := n; world := world self |}.

(** A call on a collaborator. *)
Definition emit (e : Event) (self : t) : t := with_world self (world self ++ [e]).

(** Python's [sum] of a list: the items added from the left, starting at 0. *)
Definition py_sum (l : list Loss) : Loss := fold_left add l zero.

(** [__init__] (lines 18-61). The model and the optimizer come as the
    history [model] of the calls already made on them. The arguments
    [loss_fn_arg] and [gradClip_arg] are not read. *)
Definition __init__ (args : Args) (epoch : Z) (model : list Event)
    (train_set val_set : Dataset) (loss_fn_arg : Tensor -> Tensor -> Loss)
    (scaleFactor : Loss) (gradClip_arg weightRegularizer : option Loss)
  : exn + t :=
  inr {| args := args; maxEpochs := nepochs args; curEpoch := epoch;
         train_set := train_set; val_set := val_set;
         loss_fn := MSELoss_sum;
         loss_rot := zero; loss_trans := zero; loss := zero;
         scaleFactor := scaleFactor;
         weightRegularizer := weightRegularizer;
         iters := 0; world := model ++ [ZeroGrad] |}.

(** Early exit of a [for] loop over indices: the state reached, and the
    exception that stopped the loop, if one did. *)
Fixpoint for_range {S : Type} (body : nat -> S -> S * option exn)
    (idx : list nat) (s : S) : S * option exn :=
  match idx with
  | [] => (s, None)
  | i :: rest =>
      match body i s with
      | (s', None) => for_range body rest s'
      | (s', Some e) => (s', Some e)
      end
  end.

(** [range(n)] for a Python integer [n]: empty when [n <= 0]. *)
Definition range (n : Z) : list nat := List.seq 0 (Z.to_nat n).

(** The two values of the loss function for a sample (lines 104, 107, 108):
    sum-reduced squared error of rotation and of translation. *)
Definition sample_losses (self : t) (smp : Sample) : Loss * Loss :=
  let '(rot_pred, trans_pred) := forward (world self) (inp smp) in
  (loss_fn self rot_pred (rot_gt smp), loss_fn self trans_pred (trans_gt smp)).

(** Lines 104-110 (and 213, 224-227): the forward pass and the three
    accumulators. *)
Definition accumulate (self : t) (smp : Sample) : t :=
  let '(mse_rot, mse_trans) := sample_losses self smp in
  let self := emit (Forward (inp smp)) self in
  with_losses self
    (add (loss_rot self) (mul (scaleFactor self) mse_rot))
    (add (loss_trans self) mse_trans)
    (add (loss self) (py_sum [mul (scaleFactor self) mse_rot; mse_trans])).

(** The local variables of [train]. *)
Record TrainLocals : Type := {
  rotLosses : list Loss;
  transLosses : list Loss;
  totalLosses : list Loss;
  rotLoss_seq : list Loss;
  transLoss_seq : list Loss;
  totalLoss_seq : list Loss;
  elapsedBatches : Z
}.

Definition train_locals0 : TrainLocals :=
  {| rotLosses := []; transLosses := []; totalLosses := [];
     rotLoss_seq := []; transLoss_seq := []; totalLoss_seq := [];
     elapsedBatches := 0 |}.

(** Lines 113-120 and 128: the detached per-sample losses are appended to
    the six logs and the counter of the window goes up by one. *)
Definition record_sample (lc : TrainLocals) (curloss_rot curloss_trans : Loss)
  : TrainLocals :=
  {| rotLosses := rotLosses lc ++ [curloss_rot];
     transLosses := transLosses lc ++ [curloss_trans];
     totalLosses := totalLosses lc ++ [add curloss_rot curloss_trans];
     rotLoss_seq := rotLoss_seq lc ++ [curloss_rot];
     transLoss_seq := transLoss_seq lc ++ [curloss_trans];
     totalLoss_seq := totalLoss_seq lc ++ [add curloss_rot curloss_trans];
     elapsedBatches := elapsedBatches lc + 1 |}.

(** Lines 133 and 149-151: the window's counter and logs start again. *)
Definition new_window (lc : TrainLocals) : TrainLocals :=
  {| rotLosses := rotLosses lc; transLosses := transLosses lc;
     totalLosses := totalLosses lc;
     rotLoss_seq := []; transLoss_seq := []; totalLoss_seq := [];
     elapsedBatches := 0 |}.

(** Lines 124-126: in debug mode the last iteration counts as the end of a
    sequence. *)
Definition effective_endOfSeq (self : t) (numTrainIters : Z) (i : nat)
    (smp : Sample) : bool :=
  if debug (args self) then
    if Z.of_nat i =? numTrainIters - 1 then true else endOfSeq smp
  else endOfSeq smp.

(** Line 131, read after the counter went up. *)
Definition window_closes (self : t) (lc : TrainLocals) (endOfSeq : bool) : bool :=
  (elapsedBatches lc >=? trainBatch (args self)) || endOfSeq.

(** Lines 137-142: the sum of the norms of the parameters. *)
Definition l2_reg (self : t) : Loss :=
  let '(w, ws) := param_norms (world self) in fold_left add ws w.

(** Lines 135-143. *)
Definition regularize (self : t) : t :=
  match weightRegularizer self with
  | Some wr =>
      with_losses self (loss_rot self) (loss_trans self)
        (py_sum [mul wr (l2_reg self); loss self])
  | None => self
  end.

(** Lines 133-176: what happens when a window closes. *)
Definition close_window (endOfSeq : bool) (st : t * TrainLocals)
  : t * TrainLocals :=
  let '(self, lc) := st in
  let self := regularize self in
  let self := emit (WriteRotTrans (rotLoss_seq lc) (transLoss_seq lc)) self in
  let self := emit (WriteTotal (totalLoss_seq lc)) self in
  let self := emit (Backward (loss self)) self in
  let self := match gradClip (args self) with
              | Some c => emit (ClipGradNorm c) self
              | None => self
              end in
  let self := emit OptimizerStep self in
  let self := emit DetachHidden self in
  let self := with_losses self zero zero zero in
  let self := emit ZeroGrad self in
  let self := if endOfSeq then emit ResetHidden self else self in
  (self, new_window lc).

(** Lines 101-128: the state when line 131 is reached. *)
Definition train_sample (smp : Sample) (st : t * TrainLocals) : t * TrainLocals :=
  let '(self, lc) := st in
  let '(mse_rot, mse_trans) := sample_losses self smp in
  (accumulate self smp,
   record_sample lc (mul (scaleFactor self) mse_rot) mse_trans).

(** The body of the loop of [train] (lines 101-176). *)
Definition train_iter (numTrainIters : Z) (i : nat) (st : t * TrainLocals)
  : (t * TrainLocals) * option exn :=
  match getitem (train_set (fst st)) i with
  | None => (st, Some DatasetError)
  | Some smp =>
      let st1 := train_sample smp st in
      let endOfSeq := effective_endOfSeq (fst st1) numTrainIters i smp in
      if window_closes (fst st1) (snd st1) endOfSeq
      then (close_window endOfSeq st1, None)
      else (st1, None)
  end.

(** Lines 87-90. *)
Definition numTrainIters (self : t) : Z :=
  if debug (args self) then debugIters (args self)
  else Z.of_nat (len (train_set self)).

(** Lines 76-176: the epoch past the guard, with the local variables at its
    end. *)
Definition train_loop (self : t) : (t * TrainLocals) * option exn :=
  let self := with_iters self (iters self + 1) in
  for_range (train_iter (numTrainIters self)) (range (numTrainIters self))
    (self, train_locals0).

(** What [train] and [validate] return: the three logs. *)
Definition Logs : Type := (list Loss * list Loss * list Loss)%type.

(** [train] (lines 65-179): the trainer after the call, and either the
    exception raised or the value returned, [None] for the bare [return]. *)
Definition train (self : t) : t * (exn + option Logs) :=
  let self := emit ModelTrain self in
  if curEpoch self >=? maxEpochs self then
    (emit PrintMaxEpochs self, inr None)
  else
    match train_loop self with
    | ((self, lc), Some e) => (self, inl e)
    | ((self, lc), None) =>
        (self, inr (Some (rotLosses lc, transLosses lc, totalLosses lc)))
    end.

(** The local variables of [validate]. *)
Record ValLocals : Type := {
  v_rotLosses : list Loss;
  v_transLosses : list Loss;
  v_totalLosses : list Loss;
  v_rotLoss_seq : list Loss;
  v_transLoss_seq : list Loss;
  v_totalLoss_seq : list Loss;
  traj_pred : option (list Row)
}.

Definition val_locals0 : ValLocals :=
  {| v_rotLosses := []; v_transLosses := []; v_totalLosses := [];
     v_rotLoss_seq := []; v_transLoss_seq := []; v_totalLoss_seq := [];
     traj_pred := None |}.

(** Lines 208-237: the row of the sample joins the trajectory and its
    losses join the logs. *)
Definition validate_sample (smp : Sample) (st : t * ValLocals) : t * ValLocals :=
  let '(self, lc) := st in
  let '(rot_pred, trans_pred) := forward (world self) (inp smp) in
  let cur_pred : Row := (seq smp, frame1 smp, frame2 smp, rot_pred, trans_pred) in
  let '(mse_rot, mse_trans) := sample_losses self smp in
  let curloss_rot := mul (scaleFactor self) mse_rot in
  let curloss_trans := mse_trans in
  (accumulate self smp,
   {| v_rotLosses := v_rotLosses lc ++ [curloss_rot];
      v_transLosses := v_transLosses lc ++ [curloss_trans];
      v_totalLosses := v_totalLosses lc ++ [add curloss_rot curloss_trans];
      v_rotLoss_seq := v_rotLoss_seq lc ++ [curloss_rot];
      v_transLoss_seq := v_transLoss_seq lc ++ [curloss_trans];
      v_totalLoss_seq := v_totalLoss_seq lc ++ [add curloss_rot curloss_trans];
      traj_pred := match traj_pred lc with
                   | None => Some [cur_pred]
                   | Some rows => Some (rows ++ [cur_pred])
                   end |}).

(** Lines 241-263: the end of a sequence in validation. *)
Definition close_sequence (smp : Sample) (st : t * ValLocals) : t * ValLocals :=
  let '(self, lc) := st in
  let self := emit (WriteRotTrans (v_rotLoss_seq lc) (v_transLoss_seq lc)) self in
  let self := emit (WriteTotal (v_totalLoss_seq lc)) self in
  let self := emit (SaveTxt (expDir (args self)) (seq smp) (curEpoch self)
                      (match traj_pred lc with Some rows => rows | None => [] end))
                self in
  let self := emit DetachHidden self in
  let self := with_losses self zero zero zero in
  (self,
   {| v_rotLosses := v_rotLosses lc; v_transLosses := v_transLosses lc;
      v_totalLosses := v_totalLosses lc;
      v_rotLoss_seq := []; v_transLoss_seq := []; v_totalLoss_seq := [];
      traj_pred := None |}).

(** The body of the loop of [validate] (lines 208-263). *)
Definition validate_iter (i : nat) (st : t * ValLocals)
  : (t * ValLocals) * option exn :=
  match getitem (val_set (fst st)) i with
  | None => (st, Some DatasetError)
  | Some smp =>
      let st1 := validate_sample smp st in
      if endOfSeq smp then (close_sequence smp st1, None) else (st1, None)
  end.

(** Lines 200-203. *)
Definition numValIters (self : t) : Z :=
  if debug (args self) then debugIters (args self)
  else Z.of_nat (len (val_set self)).

Definition validate_loop (self : t) : (t * ValLocals) * option exn :=
  let self := emit ModelEval self in
  for_range validate_iter (range (numValIters self)) (self, val_locals0).

(** [validate] (lines 183-266). *)
Definition validate (self : t) : t * (exn + Logs) :=
  match validate_loop self with
  | ((self, lc), Some e) => (self, inl e)
  | ((self, lc), None) =>
      (self, inr (v_rotLosses lc, v_transLosses lc, v_totalLosses lc))
  end.

End Model.

(** *** What is observed of an epoch *)

Section Observations.
Context `{Network}.

Definition is_forward (e : Event) : bool :=
  match e with Forward _ => true | _ => false end.

Definition is_backward (e : Event) : bool :=
  match e with Backward _ => true | _ => false end.

Definition is_optimizer_step (e : Event) : bool :=
  match e with OptimizerStep => true | _ => false end.

Definition is_detach (e : Event) : bool :=
  match e with DetachHidden => true | _ => false end.

Definition is_reset (e : Event) : bool :=
  match e with ResetHidden => true | _ => false end.

Definition is_hidden_signal (e : Event) : bool := is_detach e || is_reset e.


Definition count_events (p : Event -> bool) (w : list Event) : nat :=
  List.length (filter p w).

(** The forward passes and optimizer steps of a history, in order: [false]
    for a forward pass, [true] for an optimizer step. *)
Definition steps_among_samples (w : list Event) : list bool :=
  map is_optimizer_step (filter (fun e => is_forward e || is_optimizer_step e) w).

(** The items a loop over [idx] gets from a dataset: those before the first
    index at which the dataset raises. *)
Fixpoint fetched (ds : Dataset) (idx : list nat) : list (nat * Sample) :=
  match idx with
  | [] => []
  | i :: rest =>
      match getitem ds i with
      | None => []
      | Some smp => (i, smp) :: fetched ds rest
      end
  end.

(** The effective end-of-sequence flags of the samples of a training epoch. *)
Definition train_flags (self : t) : list bool :=
  map (fun p => effective_endOfSeq self (numTrainIters self) (fst p) (snd p))
      (fetched (train_set self) (range (numTrainIters self))).

(** The end-of-sequence flags of the samples of a validation epoch. *)
Definition val_flags (self : t) : list bool :=
  map (fun p => endOfSeq (snd p))
      (fetched (val_set self) (range (numValIters self))).

(** The rule of the specification for truncation windows: the counter of
    the window goes up with each sample, and the window closes when the
    counter reaches the window size or the sample ends a sequence. For each
    sample, whether it closes a window; [elapsed] samples are in the open
    window at the start. *)
Fixpoint closes_mask (size elapsed : Z) (flags : list bool) : list bool :=
  match flags with
  | [] => []
  | eos :: rest =>
      if (elapsed + 1 >=? size) || eos
      then true :: closes_mask size 0 rest
      else false :: closes_mask size (elapsed + 1) rest
  end.

Definition windows_closed (size elapsed : Z) (flags : list bool) : nat :=
  List.length (filter (fun c : bool => c) (closes_mask size elapsed flags)).

(** One forward pass per sample, and one optimizer step after each sample
    that closes a window. *)
Definition expected_steps (mask : list bool) : list bool :=
  flat_map (fun c : bool => if c then [false; true] else [false]) mask.

(** The rule of the specification for the recurrent state in training: a
    detach at each window close, and a reset besides when the closing sample
    ends a sequence. *)
Fixpoint expected_signals (size elapsed : Z) (flags : list bool) : list Event :=
  match flags with
  | [] => []
  | eos :: rest =>
      if (elapsed + 1 >=? size) || eos
      then (DetachHidden :: if eos then [ResetHidden] else [])
             ++ expected_signals size 0 rest
      else expected_signals size (elapsed + 1) rest
  end.



(** The events of a window close, for the trainer and logs at line 131. *)
Definition close_events (self : t) (lc : TrainLocals) (eos : bool) : list Event :=
  [WriteRotTrans (rotLoss_seq lc) (transLoss_seq lc);
   WriteTotal (totalLoss_seq lc);
   Backward (loss (regularize self))]
  ++ match gradClip (args self) with
     | Some c => [ClipGradNorm c]
     | None => []
     end
  ++ [OptimizerStep; DetachHidden; ZeroGrad]
  ++ (if eos then [ResetHidden] else []).

(** The three logs that [train] returns agree: the rotation and translation
    logs have one entry per sample, and each total is their sum. *)
Definition logs_ok (rot trans total : list Loss) : Prop :=
  List.length rot = List.length trans
  /\ total = map (fun p => add (fst p) (snd p)) (combine rot trans).

(** The three accumulators. *)
Definition accumulators (self : t) : Loss * Loss * Loss :=
  (loss_rot self, loss_trans self, loss self).


(** The kind of a call, without its arguments. *)
Inductive Kind : Type :=
| KModelTrain | KModelEval | KZeroGrad | KForward | KBackward
| KClipGradNorm | KOptimizerStep | KDetachHidden | KResetHidden
| KWriteRotTrans | KWriteTotal | KPrintMaxEpochs | KSaveTxt.

Definition kind (e : Event) : Kind :=
  match e with
  | ModelTrain => KModelTrain
  | ModelEval => KModelEval
  | ZeroGrad => KZeroGrad
  | Forward _ => KForward
  | Backward _ => KBackward
  | ClipGradNorm _ => KClipGradNorm
  | OptimizerStep => KOptimizerStep
  | DetachHidden => KDetachHidden
  | ResetHidden => KResetHidden
  | WriteRotTrans _ _ => KWriteRotTrans
  | WriteTotal _ => KWriteTotal
  | PrintMaxEpochs => KPrintMaxEpochs
  | SaveTxt _ _ _ _ => KSaveTxt
  end.


(** What is seen of a training epoch when each forward pass shows
    [per_forward] and each window close [per_close] of the flag of its
    sample; windows close by the rule of [closes_mask]. *)
Fixpoint epoch_projection {A : Type} (per_forward : list A)
    (per_close : bool -> list A) (size elapsed : Z) (flags : list bool)
  : list A :=
  match flags with
  | [] => []
  | eos :: rest =>
      per_forward
      ++ (if (elapsed + 1 >=? size) || eos
          then per_close eos ++ epoch_projection per_forward per_close size 0 rest
          else epoch_projection per_forward per_close size (elapsed + 1) rest)
  end.

(** The calls of a validation epoch after [model.eval()], in order. *)
Definition val_kinds (flags : list bool) : list Kind :=
  flat_map (fun eos : bool =>
              KForward :: if eos
                          then [KWriteRotTrans; KWriteTotal; KSaveTxt;
                                KDetachHidden]
                          else [])
    flags.


(** The bounds passed to [clip_grad_norm_], in order. *)
Definition clip_bounds (w : list Event) : list Loss :=
  flat_map (fun e => match e with ClipGradNorm c => [c] | _ => [] end) w.

(** The per-sample losses whose means were written, in order. *)
Definition reported_rot (w : list Event) : list Loss :=
  flat_map (fun e => match e with WriteRotTrans r _ => r | _ => [] end) w.

Definition reported_trans (w : list Event) : list Loss :=
  flat_map (fun e => match e with WriteRotTrans _ tr => tr | _ => [] end) w.

Definition reported_total (w : list Event) : list Loss :=
  flat_map (fun e => match e with WriteTotal tot => tot | _ => [] end) w.

(** The rows of a validation epoch that are not yet written to a file. *)
Definition pending_rows (lc : ValLocals) : list Row :=
  match traj_pred lc with Some rows => rows | None => [] end.

(** Sequence id and frame indices of a row and of a sample. *)
Definition row_meta (r : Row) : Z * Z * Z := fst (fst r).

Definition sample_meta (smp : Sample) : Z * Z * Z :=
  (seq smp, frame1 smp, frame2 smp).

(** The trajectory files written, in order: directory, sequence id and
    epoch that name the file, and sequence id and frame indices of each of
    its rows. *)
Definition saved_files (w : list Event)
  : list (string * Z * Z * list (Z * Z * Z)) :=
  flat_map (fun e => match e with
                     | SaveTxt d s ep traj => [(d, s, ep, map row_meta traj)]
                     | _ => []
                     end)
    w.

(** The files that the samples of a validation epoch call for, and the rows
    left over: a file at each sample that ends a sequence, named after that
    sample, with one row for each sample since the file before. *)
Fixpoint expected_files (dir : string) (epoch : Z)
    (pending : list (Z * Z * Z)) (samples : list Sample)
  : list (string * Z * Z * list (Z * Z * Z)) * list (Z * Z * Z) :=
  match samples with
  | [] => ([], pending)
  | smp :: rest =>
      if endOfSeq smp then
        ((dir, seq smp, epoch, pending ++ [sample_meta smp])
           :: fst (expected_files dir epoch [] rest),
         snd (expected_files dir epoch [] rest))
      else expected_files dir epoch (pending ++ [sample_meta smp]) rest
  end.

(** The fields that neither [train] nor [validate] assigns. *)
Definition config (self : t) :=
  (args self, maxEpochs self, curEpoch self, train_set self, val_set self,
   loss_fn self, scaleFactor self, weightRegularizer self).


Definition zeros : Loss * Loss * Loss := (zero, zero, zero).

End Observations.

(** *** An instance with integer losses *)

Module Demo.

Definition Z_tensors : Tensors :=
  {| Loss := Z; Tensor := Z; zero := 0; add := Z.add; mul := Z.mul |}.

(** The network predicts its input as rotation and 0 as translation; the
    loss is the squared error of one-element tensors. *)
Definition Z_network : @Network Z_tensors :=
  @Build_Network Z_tensors
    (fun p g : Z => (p - g) * (p - g))
    (fun (_ : list (@Event Z_tensors)) (x : Z) => (x, 0))
    (fun _ => (1, [])).

#[local] Existing Instance Z_tensors.
#[local] Existing Instance Z_network.

(** A sample with rotation loss [r * r] and translation loss [tr * tr]. *)
Definition sample (k r tr : Z) (eos : bool) : @Sample Z_tensors :=
  {| inp := k; rot_gt := k - r; trans_gt := tr; seq := 0;
     frame1 := k; frame2 := k + 1; endOfSeq := eos |}.

Definition demo_args (maxEp size : Z) : @Args Z_tensors :=
  {| nepochs := maxEp; debug := false; debugIters := 0; trainBatch := size;
     gradClip := None; expDir := "exp" |}.

(** The trainer that [__init__] builds for a fresh model, rotation scale 2
    and no regularizer. *)
Definition trainer (a : @Args Z_tensors) (epoch : Z)
    (tr va : list (@Sample Z_tensors)) : @t Z_tensors :=
  {| args := a; maxEpochs := nepochs a; curEpoch := epoch;
     train_set := dataset_of_list tr; val_set := dataset_of_list va;
     loss_fn := MSELoss_sum;
     loss_rot := 0; loss_trans := 0; loss := 0;
     scaleFactor := 2; weightRegularizer := None;
     iters := 0; world := [ZeroGrad] |}.

(** Window size 3 and five samples flagged [F, F, F, F, T]. *)
Definition five_samples : list Sample :=
  [sample 0 1 0 false; sample 1 1 0 false; sample 2 1 0 false;
   sample 3 1 0 false; sample 4 1 0 true].

Definition scenario : t := trainer (demo_args 1 3) 0 five_samples [].

(** Four samples, none ending a sequence, and window size 3: every epoch
    leaves its fourth sample in the accumulators. *)
Definition four_samples : list Sample :=
  [sample 0 1 1 false; sample 1 2 0 false; sample 2 1 1 false;
   sample 3 3 1 false].

(** A validation set whose last sample does not end a sequence. *)
Definition val_samples : list Sample :=
  [sample 0 1 0 true; sample 1 2 1 false].

Definition leaky : t := trainer (demo_args 5 3) 0 four_samples val_samples.

(** A trainer whose epoch counter has reached the maximum. *)
Definition finished : t := trainer (demo_args 1 3) 1 five_samples val_samples.

(** A trainer in debug mode, for two iterations. *)
Definition debug_args : @Args Z_tensors :=
  {| nepochs := 5; debug := true; debugIters := 2; trainBatch := 3;
     gradClip := Some 7; expDir := "exp" |}.

Definition debugging : t := trainer debug_args 0 four_samples val_samples.

(** A trainer in debug mode that asks for more items than the sets hold. *)
Definition overrun_args : @Args Z_tensors :=
  {| nepochs := 5; debug := true; debugIters := 6; trainBatch := 3;
     gradClip := None; expDir := "exp" |}.

Definition overrun : t := trainer overrun_args 0 four_samples val_samples.

(** A trainer whose sets are empty. *)
Definition empty_sets : t := trainer (demo_args 1 3) 0 [] [].

(** A validation set of two sequences, and one sample of a third. *)
Definition two_sequences : list Sample :=
  [{| inp := 0; rot_gt := 1; trans_gt := 0; seq := 4;
      frame1 := 0; frame2 := 1; endOfSeq := false |};
   {| inp := 1; rot_gt := 1; trans_gt := 0; seq := 4;
      frame1 := 1; frame2 := 2; endOfSeq := true |};
   {| inp := 2; rot_gt := 1; trans_gt := 1; seq := 5;
      frame1 := 0; frame2 := 1; endOfSeq := true |};
   {| inp := 3; rot_gt := 1; trans_gt := 0; seq := 6;
      frame1 := 0; frame2 := 1; endOfSeq := false |}].

Definition validating : t := trainer (demo_args 5 3) 2 four_samples two_sequences.


End Demo.

End Trainer.

(* ================================================================= *)
(** * Properties of the curriculum *)

Section CurriculumFacts.
Import Curriculum.

Lemma ceil_1_5_above (n : Z) : 1 <= n -> n < ceil_1_5 n.
Proof.
  intros Hn. unfold ceil_1_5.
  assert (n + 1 <= (3 * n + 1) / 2) by (apply Z.div_le_lower_bound; lia).
  lia.
Qed.

Lemma randint_in_range (low high u : Z) :
  low < high ->
  exists r, randint low high u = inr r /\ low <= r < high.
Proof.
  intros Hlt. unfold randint.
  apply Z.ltb_lt in Hlt as Hb. rewrite Hb.
  exists (low + u mod (high - low)). split; [reflexivity|].
  pose proof (Z.mod_pos_bound u (high - low)). lia.
Qed.

(** Every value of the range is drawn for some entropy. *)
Lemma randint_onto (low high r : Z) :
  low <= r < high -> randint low high (r - low) = inr r.
Proof.
  intros Hr. unfold randint.
  assert (Hb : (low <? high) = true) by (apply Z.ltb_lt; lia).
  rewrite Hb. rewrite Z.mod_small by lia. f_equal. lia.
Qed.

(** A step with a good loss, once the draw is made, stops at line 32. *)
Lemma step_good_loss (self : Curriculum.t) (cur_loss : float) (u r : Z) :
  PrimFloat.leb cur_loss (good_loss self) = true ->
  randint (cur_seqlen self) (ceil_1_5 (cur_seqlen self)) u = inr r ->
  step self cur_loss u
  = (with_cur_seqlen self (cur_seqlen self + r),
     Some (NameError "max_frames")).
Proof.
  intros Hgood Hr. unfold step, grow. rewrite Hgood, Hr. reflexivity.
Qed.

(** C1, as stated, fails: from the default curriculum (length 5) a step
    with the good loss 0.005 leaves length 10, above
    [min(1095, ceil(5 * 1.5)) = 8]. *)
Lemma step_claimed_bound_fails :
  ~ (forall (self : Curriculum.t) (cur_loss : float) (u : Z),
        PrimFloat.leb cur_loss (good_loss self) = true ->
        cur_seqlen self <= cur_seqlen (fst (step self cur_loss u))
        /\ cur_seqlen (fst (step self cur_loss u))
           <= Z.min (max_frames self) (ceil_1_5 (cur_seqlen self))).
Proof.
  intros Hclaim.
  destruct (Hclaim default 0.005%float 0 eq_refl) as [_ Hup].
  vm_compute in Hup. apply Hup. reflexivity.
Qed.

(** C1 (amended): a step with a loss that is not at or below [good_loss]
    returns and leaves the curriculum as it was. A step with a loss at or
    below [good_loss], from a length [old >= 1], adds to the length a draw
    [r] with [old <= r < ceil(old * 1.5)]: the grown length [old + r] is
    between [2 * old] and [old + ceil(old * 1.5) - 1], and it is what lines
    32-33 then receive. *)
Theorem step_growth (self : Curriculum.t) (cur_loss : float) (u : Z) :
  (PrimFloat.leb cur_loss (good_loss self) = false ->
   step self cur_loss u = (self, None))
  /\ (PrimFloat.leb cur_loss (good_loss self) = true ->
      1 <= cur_seqlen self <= 2 ^ 51 ->
      exists r,
        cur_seqlen self <= r < ceil_1_5 (cur_seqlen self)
        /\ grow self u = inr (with_cur_seqlen self (cur_seqlen self + r))
        /\ step self cur_loss u
           = clamp (with_cur_seqlen self (cur_seqlen self + r))
        /\ 2 * cur_seqlen self <= cur_seqlen self + r
           <= cur_seqlen self + ceil_1_5 (cur_seqlen self) - 1).
Proof.
  split.
  - intros Hbad. unfold step. rewrite Hbad. reflexivity.
  - intros Hgood [Hlo _].
    destruct (randint_in_range (cur_seqlen self) (ceil_1_5 (cur_seqlen self)) u)
      as [r [Hr Hin]].
    { apply ceil_1_5_above; assumption. }
    exists r. split; [exact Hin|].
    assert (Hg : grow self u
                 = inr (with_cur_seqlen self (cur_seqlen self + r))).
    { unfold grow. rewrite Hr. reflexivity. }
    split; [exact Hg|]. split.
    + unfold step. rewrite Hgood, Hg. reflexivity.
    + lia.
Qed.

Lemma step_growth_witness :
  step default 1%float 0 = (default, None)
  /\ exists r,
       cur_seqlen default <= r < ceil_1_5 (cur_seqlen default)
       /\ grow default 2 = inr (with_cur_seqlen default (cur_seqlen default + r))
       /\ step default 0.005%float 2
          = clamp (with_cur_seqlen default (cur_seqlen default + r))
       /\ 2 * cur_seqlen default <= cur_seqlen default + r
          <= cur_seqlen default + ceil_1_5 (cur_seqlen default) - 1.
Proof.
  split.
  - apply (proj1 (step_growth default 1%float 0)). reflexivity.
  - apply (proj2 (step_growth default 0.005%float 2)).
    + reflexivity.
    + simpl. lia.
Defined.

(** C2: on the default curriculum, every step with the good loss 0.005
    raises [NameError] at line 32, whatever is drawn, and leaves the length
    at 10, 11 or 12; the clamp is never reached, so from length 1000 the
    length left behind is above the maximum 1095. *)
Theorem step_good_loss_raises (u : Z) :
  snd (step default 0.005%float u) = Some (NameError "max_frames")
  /\ 10 <= cur_seqlen (fst (step default 0.005%float u)) <= 12
  /\ snd (step (with_cur_seqlen default 1000) 0.005%float u)
     = Some (NameError "max_frames")
  /\ max_frames default
     < cur_seqlen (fst (step (with_cur_seqlen default 1000) 0.005%float u)).
Proof.
  assert (Hgood : PrimFloat.leb 0.005%float (good_loss default) = true)
    by reflexivity.
  destruct (randint_in_range 5 8 u) as [r [Hr Hin]]; [lia|].
  destruct (randint_in_range 1000 1500 u) as [r' [Hr' Hin']]; [lia|].
  rewrite (step_good_loss default 0.005%float u r Hgood Hr).
  rewrite (step_good_loss (with_cur_seqlen default 1000) 0.005%float u r'
             Hgood Hr').
  cbn [fst snd cur_seqlen max_frames with_cur_seqlen default __init__].
  repeat split; lia.
Qed.

End CurriculumFacts.

(* ================================================================= *)
(** * Properties of the trainer *)

Section TrainerFacts.
Import Trainer.
Context `{Network}.

(** ** The steps of the loop of [train], unfolded *)

Lemma accumulate_eq (self : t) (smp : Sample) :
  accumulate self smp
  = with_losses (emit (Forward (inp smp)) self)
      (add (loss_rot self)
         (mul (scaleFactor self) (fst (sample_losses self smp))))
      (add (loss_trans self) (snd (sample_losses self smp)))
      (add (loss self)
         (py_sum [mul (scaleFactor self) (fst (sample_losses self smp));
                  snd (sample_losses self smp)])).
Proof.
  unfold accumulate. destruct (sample_losses self smp). reflexivity.
Qed.

Lemma train_sample_eq (smp : Sample) (self : t) (lc : TrainLocals) :
  train_sample smp (self, lc)
  = (accumulate self smp,
     record_sample lc
       (mul (scaleFactor self) (fst (sample_losses self smp)))
       (snd (sample_losses self smp))).
Proof.
  unfold train_sample. destruct (sample_losses self smp). reflexivity.
Qed.

Lemma t_ext (a b : t) :
  args a = args b -> maxEpochs a = maxEpochs b -> curEpoch a = curEpoch b ->
  train_set a = train_set b -> val_set a = val_set b ->
  loss_fn a = loss_fn b ->
  accumulators a = accumulators b ->
  scaleFactor a = scaleFactor b ->
  weightRegularizer a = weightRegularizer b ->
  iters a = iters b -> world a = world b ->
  a = b.
Proof.
  destruct a, b. unfold accumulators. cbn.
  intros -> -> -> -> -> -> Hacc -> -> -> ->.
  injection Hacc as -> -> ->. reflexivity.
Qed.

(** Projections of the fields through the updates of the trainer. *)
Ltac fields :=
  cbn [args maxEpochs curEpoch train_set val_set loss_fn loss_rot loss_trans
       loss scaleFactor weightRegularizer iters world accumulators
       with_world with_losses with_iters emit fst snd].

Lemma close_window_eq (eos : bool) (self : t) (lc : TrainLocals) :
  close_window eos (self, lc)
  = (with_losses (with_world self (world self ++ close_events self lc eos))
       zero zero zero,
     new_window lc).
Proof.
  unfold close_window, close_events, regularize. cbv zeta.
  f_equal.
  destruct (weightRegularizer self) eqn:Hw; fields;
    destruct (gradClip (args self)) eqn:Hc; destruct eos;
    apply t_ext; fields; rewrite ?Hw, ?Hc;
    rewrite <- ?app_assoc; reflexivity.
Qed.

Lemma train_iter_eq (n : Z) (i : nat) (self : t) (lc : TrainLocals)
    (smp : Sample) :
  getitem (train_set self) i = Some smp ->
  train_iter n i (self, lc)
  = (let st1 := train_sample smp (self, lc) in
     let eos := effective_endOfSeq self n i smp in
     if (elapsedBatches lc + 1 >=? trainBatch (args self)) || eos
     then close_window eos st1 else st1,
     None).
Proof.
  intros Hget. unfold train_iter. cbn [fst snd]. rewrite Hget.
  rewrite train_sample_eq, accumulate_eq. cbn [fst snd].
  unfold window_closes, effective_endOfSeq. cbn.
  destruct (_ || _); reflexivity.
Qed.

Lemma train_iter_raise (n : Z) (i : nat) (st : t * TrainLocals) :
  getitem (train_set (fst st)) i = None ->
  train_iter n i st = (st, Some DatasetError).
Proof.
  intros Hget. unfold train_iter. rewrite Hget. reflexivity.
Qed.

(** ** Optimizer steps and windows (C3) *)

Lemma steps_among_samples_app (w1 w2 : list Event) :
  steps_among_samples (w1 ++ w2)
  = steps_among_samples w1 ++ steps_among_samples w2.
Proof.
  unfold steps_among_samples. rewrite filter_app, map_app. reflexivity.
Qed.

Lemma steps_close_events (self : t) (lc : TrainLocals) (eos : bool) :
  steps_among_samples (close_events self lc eos) = [true].
Proof.
  unfold close_events.
  destruct (gradClip (args self)), eos; reflexivity.
Qed.

Lemma count_steps (w : list Event) :
  count_events is_optimizer_step w
  = List.length (filter (fun c : bool => c) (steps_among_samples w)).
Proof.
  unfold count_events, steps_among_samples.
  induction w as [|e w IH]; [reflexivity|].
  destruct e; cbn; rewrite ?IH; reflexivity.
Qed.

Lemma count_expected_steps (mask : list bool) :
  List.length (filter (fun c : bool => c) (expected_steps mask))
  = List.length (filter (fun c : bool => c) mask).
Proof.
  unfold expected_steps.
  induction mask as [|c mask IH]; [reflexivity|].
  destruct c; cbn [flat_map app filter List.length]; rewrite IH; reflexivity.
Qed.

Lemma train_loop_steps (n : Z) (idx : list nat) :
  forall (self : t) (lc : TrainLocals),
    steps_among_samples
      (world (fst (fst (for_range (train_iter n) idx (self, lc)))))
    = steps_among_samples (world self)
      ++ expected_steps
           (closes_mask (trainBatch (args self)) (elapsedBatches lc)
              (map (fun p => effective_endOfSeq self n (fst p) (snd p))
                 (fetched (train_set self) idx))).
Proof.
  induction idx as [|i idx IH]; intros self lc.
  - cbn. rewrite app_nil_r. reflexivity.
  - cbn [for_range fetched].
    destruct (getitem (train_set self) i) as [smp|] eqn:Hget.
    + rewrite (train_iter_eq n i self lc smp Hget). cbn zeta.
      rewrite train_sample_eq, accumulate_eq.
      cbn [map closes_mask fst snd].
      destruct ((elapsedBatches lc + 1 >=? trainBatch (args self))
                || effective_endOfSeq self n i smp) eqn:Hclose.
      * rewrite close_window_eq. cbn iota. rewrite IH.
        cbn [world with_losses with_world emit args train_set
             elapsedBatches new_window expected_steps flat_map].
        rewrite !steps_among_samples_app, steps_close_events.
        rewrite <- !app_assoc. reflexivity.
      * cbn iota. rewrite IH.
        cbn [world with_losses with_world emit args train_set
             elapsedBatches record_sample expected_steps flat_map].
        rewrite !steps_among_samples_app.
        rewrite <- !app_assoc. reflexivity.
    + rewrite train_iter_raise by exact Hget.
      cbn. rewrite app_nil_r. reflexivity.
Qed.

Lemma train_guarded (self : t) :
  (curEpoch self >=? maxEpochs self) = true ->
  train self = (emit PrintMaxEpochs (emit ModelTrain self), inr None).
Proof.
  intros Hg. unfold train. cbn [curEpoch maxEpochs emit with_world].
  rewrite Hg. reflexivity.
Qed.

Lemma train_fst (self : t) :
  (curEpoch self >=? maxEpochs self) = false ->
  fst (train self) = fst (fst (train_loop (emit ModelTrain self))).
Proof.
  intros Hg. unfold train. cbn [curEpoch maxEpochs emit with_world].
  rewrite Hg.
  destruct (train_loop _) as [[self' lc] [e|]]; reflexivity.
Qed.

(** C3: the optimizer steps of a training epoch are the windows closed in
    it, one step after each sample that closes a window and none elsewhere
    (none at all when the epoch is skipped); with window size 3 and flags
    [F, F, F, F, T] there are two steps, after the third and after the fifth
    sample. *)
Theorem train_optimizer_steps (self : t) :
  let size := trainBatch (args self) in
  let skipped := curEpoch self >=? maxEpochs self in
  let w' := world (fst (train self)) in
  count_events is_optimizer_step w'
  = (count_events is_optimizer_step (world self)
     + (if skipped then 0 else windows_closed size 0 (train_flags self)))%nat
  /\ steps_among_samples w'
     = steps_among_samples (world self)
       ++ (if skipped then []
           else expected_steps (closes_mask size 0 (train_flags self)))
  /\ (size = 3 -> skipped = false ->
      train_flags self = [false; false; false; false; true] ->
      count_events is_optimizer_step w'
      = (count_events is_optimizer_step (world self) + 2)%nat
      /\ steps_among_samples w'
         = steps_among_samples (world self)
           ++ [false; false; false; true; false; false; true]).
Proof.
  cbv zeta.
  assert (Hsteps :
    steps_among_samples (world (fst (train self)))
    = steps_among_samples (world self)
      ++ (if curEpoch self >=? maxEpochs self then []
          else expected_steps
                 (closes_mask (trainBatch (args self)) 0 (train_flags self)))).
  { destruct (curEpoch self >=? maxEpochs self) eqn:Hg.
    - rewrite (train_guarded self Hg). cbn [fst world emit with_world].
      rewrite !steps_among_samples_app. cbn. rewrite !app_nil_r. reflexivity.
    - rewrite (train_fst self Hg). unfold train_loop.
      rewrite train_loop_steps.
      cbn [world with_iters emit with_world].
      rewrite steps_among_samples_app. cbn [steps_among_samples filter map
        is_forward is_optimizer_step orb app].
      rewrite app_nil_r. reflexivity. }
  assert (Hcount :
    count_events is_optimizer_step (world (fst (train self)))
    = (count_events is_optimizer_step (world self)
       + (if curEpoch self >=? maxEpochs self then 0
          else windows_closed (trainBatch (args self)) 0 (train_flags self)))%nat).
  { rewrite !count_steps, Hsteps, filter_app, length_app.
    destruct (curEpoch self >=? maxEpochs self); [reflexivity|].
    rewrite count_expected_steps. reflexivity. }
  split; [exact Hcount|]. split; [exact Hsteps|].
  intros Hsize Hg Hflags.
  rewrite Hcount, Hsteps, Hg, Hsize, Hflags. split; reflexivity.
Qed.

(** ** Detach and reset of the recurrent state in training (C5) *)

Lemma signals_close_events (self : t) (lc : TrainLocals) (eos : bool) :
  filter is_hidden_signal (close_events self lc eos)
  = DetachHidden :: (if eos then [ResetHidden] else []).
Proof.
  unfold close_events.
  destruct (gradClip (args self)), eos; reflexivity.
Qed.

Lemma train_loop_signals (n : Z) (idx : list nat) :
  forall (self : t) (lc : TrainLocals),
    filter is_hidden_signal
      (world (fst (fst (for_range (train_iter n) idx (self, lc)))))
    = filter is_hidden_signal (world self)
      ++ expected_signals (trainBatch (args self)) (elapsedBatches lc)
           (map (fun p => effective_endOfSeq self n (fst p) (snd p))
              (fetched (train_set self) idx)).
Proof.
  induction idx as [|i idx IH]; intros self lc.
  - cbn. rewrite app_nil_r. reflexivity.
  - cbn [for_range fetched].
    destruct (getitem (train_set self) i) as [smp|] eqn:Hget.
    + rewrite (train_iter_eq n i self lc smp Hget). cbn zeta.
      rewrite train_sample_eq, accumulate_eq.
      cbn [map expected_signals fst snd].
      destruct ((elapsedBatches lc + 1 >=? trainBatch (args self))
                || effective_endOfSeq self n i smp) eqn:Hclose.
      * rewrite close_window_eq. cbn iota. rewrite IH.
        cbn [world with_losses with_world emit args train_set
             elapsedBatches new_window].
        rewrite !filter_app, signals_close_events.
        cbn [filter is_hidden_signal is_detach is_reset orb].
        rewrite <- !app_assoc. reflexivity.
      * cbn iota. rewrite IH.
        cbn [world with_losses with_world emit args train_set
             elapsedBatches record_sample].
        rewrite !filter_app.
        cbn [filter is_hidden_signal is_detach is_reset orb].
        rewrite <- !app_assoc. reflexivity.
    + rewrite train_iter_raise by exact Hget.
      cbn. rewrite app_nil_r. reflexivity.
Qed.

Lemma count_filter_app (p : Event -> bool) (w1 w2 : list Event) :
  count_events p (w1 ++ w2) = (count_events p w1 + count_events p w2)%nat.
Proof.
  unfold count_events. rewrite filter_app, length_app. reflexivity.
Qed.

Lemma count_signals (p : Event -> bool) (w : list Event) :
  (forall e, p e = true -> is_hidden_signal e = true) ->
  count_events p w = count_events p (filter is_hidden_signal w).
Proof.
  intros Hp. unfold count_events.
  induction w as [|e w IH]; [reflexivity|].
  cbn [filter]. destruct (is_hidden_signal e) eqn:He.
  - cbn [filter]. destruct (p e); cbn; rewrite IH; reflexivity.
  - destruct (p e) eqn:Hpe; [|exact IH].
    apply Hp in Hpe. congruence.
Qed.

Lemma resets_expected (size : Z) (flags : list bool) :
  forall elapsed,
    count_events is_reset (expected_signals size elapsed flags)
    = List.length (filter (fun c : bool => c) flags).
Proof.
  induction flags as [|eos flags IH]; intros elapsed; [reflexivity|].
  cbn [expected_signals]. destruct eos.
  - rewrite orb_true_r. cbn [app]. unfold count_events in *. cbn.
    rewrite IH. reflexivity.
  - rewrite orb_false_r. destruct (elapsed + 1 >=? size).
    + unfold count_events in *. cbn. apply IH.
    + apply IH.
Qed.

Lemma detaches_expected (size : Z) (flags : list bool) :
  forall elapsed,
    count_events is_detach (expected_signals size elapsed flags)
    = windows_closed size elapsed flags.
Proof.
  unfold windows_closed.
  induction flags as [|eos flags IH]; intros elapsed; [reflexivity|].
  cbn [expected_signals closes_mask].
  destruct ((elapsed + 1 >=? size) || eos).
  - destruct eos; unfold count_events in *; cbn; rewrite IH; reflexivity.
  - apply IH.
Qed.

(** C5: in training, while a sample is processed the recurrent state is
    reset exactly when the sample's effective end-of-sequence flag is true
    (such a sample always closes its window), and a window closed by the size
    threshold alone gets a detach and no reset. Over an epoch the detach and
    reset signals are those of the rule, the resets are as many as the
    samples with a true effective flag, and the detaches as many as the
    windows closed. The effective flag is the flag of the sample, except in
    the last iteration of debug mode, where it is true: outside debug mode,
    and in every other iteration of debug mode, it is the flag of the sample,
    so that there a reset is signaled only for a sample that ends a sequence
    and a window closed by size alone is never reset. *)
Theorem train_reset_iff_end_of_sequence (self : t) :
  let size := trainBatch (args self) in
  let skipped := curEpoch self >=? maxEpochs self in
  let w' := world (fst (train self)) in
  (forall n i lc smp,
      getitem (train_set self) i = Some smp ->
      let eos := effective_endOfSeq self n i smp in
      let closes := (elapsedBatches lc + 1 >=? size) || eos in
      filter is_hidden_signal
        (world (fst (fst (train_iter n i (self, lc)))))
      = filter is_hidden_signal (world self)
        ++ (if eos then [DetachHidden; ResetHidden]
            else if closes then [DetachHidden] else []))
  /\ filter is_hidden_signal w'
     = filter is_hidden_signal (world self)
       ++ (if skipped then []
           else expected_signals size 0 (train_flags self))
  /\ count_events is_reset w'
     = (count_events is_reset (world self)
        + (if skipped then 0
           else List.length (filter (fun c : bool => c) (train_flags self))))%nat
  /\ count_events is_detach w'
     = (count_events is_detach (world self)
        + (if skipped then 0 else windows_closed size 0 (train_flags self)))%nat
  /\ (forall n i smp,
      debug (args self) = true -> Z.of_nat i = n - 1 ->
      effective_endOfSeq self n i smp = true)
  /\ (forall n i smp,
      debug (args self) = false ->
      effective_endOfSeq self n i smp = endOfSeq smp)
  /\ (forall n i smp,
      debug (args self) = true -> Z.of_nat i <> n - 1 ->
      effective_endOfSeq self n i smp = endOfSeq smp)
  /\ (forall n i smp,
      effective_endOfSeq self n i smp
      = endOfSeq smp || (debug (args self) && (Z.of_nat i =? n - 1))).
Proof.
  cbv zeta.
  assert (Hsig :
    filter is_hidden_signal (world (fst (train self)))
    = filter is_hidden_signal (world self)
      ++ (if curEpoch self >=? maxEpochs self then []
          else expected_signals (trainBatch (args self)) 0 (train_flags self))).
  { destruct (curEpoch self >=? maxEpochs self) eqn:Hg.
    - rewrite (train_guarded self Hg). cbn [fst world emit with_world].
      rewrite !filter_app. cbn. rewrite !app_nil_r. reflexivity.
    - rewrite (train_fst self Hg). unfold train_loop.
      rewrite train_loop_signals.
      cbn [world with_iters emit with_world].
      rewrite filter_app. cbn [filter is_hidden_signal is_detach is_reset
        orb app].
      rewrite app_nil_r. reflexivity. }
  split; [|split; [exact Hsig|split; [|split; [|split; [|split; [|split]]]]]].
  - intros n i lc smp Hget.
    rewrite (train_iter_eq n i self lc smp Hget). cbn zeta.
    rewrite train_sample_eq, accumulate_eq.
    destruct (effective_endOfSeq self n i smp) eqn:Heos.
    + rewrite orb_true_r, close_window_eq.
      cbn [fst world with_losses with_world emit].
      rewrite !filter_app, signals_close_events.
      cbn. rewrite <- !app_assoc. reflexivity.
    + rewrite orb_false_r.
      destruct (elapsedBatches lc + 1 >=? trainBatch (args self)).
      * rewrite close_window_eq.
        cbn [fst world with_losses with_world emit].
        rewrite !filter_app, signals_close_events.
        cbn. rewrite <- !app_assoc. reflexivity.
      * cbn [fst world with_losses with_world emit].
        rewrite !filter_app. cbn. rewrite app_nil_r. reflexivity.
  - rewrite (count_signals is_reset (world (fst (train self)))),
      (count_signals is_reset (world self)), Hsig, count_filter_app.
    + destruct (curEpoch self >=? maxEpochs self); [reflexivity|].
      rewrite resets_expected. reflexivity.
    + intros e He. unfold is_hidden_signal. rewrite He. apply orb_true_r.
    + intros e He. unfold is_hidden_signal. rewrite He. apply orb_true_r.
  - rewrite (count_signals is_detach (world (fst (train self)))),
      (count_signals is_detach (world self)), Hsig, count_filter_app.
    + destruct (curEpoch self >=? maxEpochs self); [reflexivity|].
      rewrite detaches_expected. reflexivity.
    + intros e He. unfold is_hidden_signal. rewrite He. reflexivity.
    + intros e He. unfold is_hidden_signal. rewrite He. reflexivity.
  - intros n i smp Hd Hi. unfold effective_endOfSeq.
    rewrite Hd. apply Z.eqb_eq in Hi. rewrite Hi. reflexivity.
  - intros n i smp Hd. unfold effective_endOfSeq. rewrite Hd. reflexivity.
  - intros n i smp Hd Hi. unfold effective_endOfSeq.
    rewrite Hd. apply Z.eqb_neq in Hi. rewrite Hi. reflexivity.
  - intros n i smp. unfold effective_endOfSeq.
    destruct (debug (args self)), (Z.of_nat i =? n - 1), (endOfSeq smp);
      reflexivity.
Qed.

(** ** Validation (C6) *)

Lemma validate_iter_raise (i : nat) (st : t * ValLocals) :
  getitem (val_set (fst st)) i = None ->
  validate_iter i st = (st, Some DatasetError).
Proof.
  intros Hget. unfold validate_iter. rewrite Hget. reflexivity.
Qed.

Lemma validate_sample_fst (smp : Sample) (self : t) (lc : ValLocals) :
  fst (validate_sample smp (self, lc)) = accumulate self smp.
Proof.
  unfold validate_sample.
  destruct (forward (world self) (inp smp)), (sample_losses self smp).
  reflexivity.
Qed.

Lemma close_sequence_fst (smp : Sample) (self : t) (lc : ValLocals) :
  fst (close_sequence smp (self, lc))
  = with_losses
      (with_world self
         (world self
          ++ [WriteRotTrans (v_rotLoss_seq lc) (v_transLoss_seq lc);
              WriteTotal (v_totalLoss_seq lc);
              SaveTxt (expDir (args self)) (seq smp) (curEpoch self)
                (match traj_pred lc with Some rows => rows | None => [] end);
              DetachHidden]))
      zero zero zero.
Proof.
  unfold close_sequence, emit, with_losses, with_world. cbn.
  rewrite <- !app_assoc. reflexivity.
Qed.

(** The events a validation epoch adds that a predicate [q] keeps, when [q]
    keeps no forward pass, report or file write: what it keeps of one detach
    for each sample that ends a sequence. *)
Lemma validate_loop_filter (q : Event -> bool) (idx : list nat) :
  (forall x, q (Forward x) = false) ->
  (forall a b, q (WriteRotTrans a b) = false) ->
  (forall a, q (WriteTotal a) = false) ->
  (forall a b c d, q (SaveTxt a b c d) = false) ->
  forall (self : t) (lc : ValLocals),
    filter q (world (fst (fst (for_range validate_iter idx (self, lc)))))
    = filter q (world self)
      ++ flat_map (fun eos : bool => if eos then filter q [DetachHidden] else [])
           (map (fun p => endOfSeq (snd p)) (fetched (val_set self) idx)).
Proof.
  intros Hf Hw Ht Hs.
  induction idx as [|i idx IH]; intros self lc.
  - cbn. rewrite app_nil_r. reflexivity.
  - cbn [for_range fetched].
    destruct (getitem (val_set self) i) as [smp|] eqn:Hget.
    + unfold validate_iter at 1. cbn [fst]. rewrite Hget. cbn zeta.
      pose proof (validate_sample_fst smp self lc) as Hvs.
      destruct (validate_sample smp (self, lc)) as [self1 lc1].
      cbn [fst] in Hvs. subst self1.
      cbn [map flat_map fst snd].
      destruct (endOfSeq smp).
      * pose proof (close_sequence_fst smp (accumulate self smp) lc1) as Hcs.
        destruct (close_sequence smp (accumulate self smp, lc1))
          as [self2 lc2].
        cbn [fst] in Hcs. subst self2. rewrite IH.
        rewrite accumulate_eq.
        cbn [world with_losses with_world emit val_set].
        rewrite !filter_app. cbn [filter]. rewrite Hf, Hw, Ht, Hs.
        rewrite <- !app_assoc. reflexivity.
      * rewrite IH. rewrite accumulate_eq.
        cbn [world with_losses with_world emit val_set].
        rewrite !filter_app. cbn [filter]. rewrite Hf.
        rewrite <- !app_assoc. reflexivity.
    + rewrite validate_iter_raise by exact Hget.
      cbn. rewrite app_nil_r. reflexivity.
Qed.

Lemma validate_fst (self : t) :
  fst (validate self) = fst (fst (validate_loop self)).
Proof.
  unfold validate.
  destruct (validate_loop self) as [[self' lc] [e|]]; reflexivity.
Qed.

Lemma flat_map_nil {A B : Type} (f : A -> list B) (l : list A) :
  (forall a, f a = []) -> flat_map f l = [].
Proof.
  intros Hf. induction l as [|a l IH]; [reflexivity|].
  cbn. rewrite Hf, IH. reflexivity.
Qed.

Lemma flat_map_flags {B : Type} (b : B) (flags : list bool) :
  flat_map (fun eos : bool => if eos then [b] else []) flags
  = map (fun _ => b) (filter (fun c : bool => c) flags).
Proof.
  induction flags as [|c flags IH]; [reflexivity|].
  destruct c; cbn; rewrite IH; reflexivity.
Qed.

Lemma validate_filter (q : Event -> bool) (self : t) :
  (forall x, q (Forward x) = false) ->
  (forall a b, q (WriteRotTrans a b) = false) ->
  (forall a, q (WriteTotal a) = false) ->
  (forall a b c d, q (SaveTxt a b c d) = false) ->
  q ModelEval = false ->
  filter q (world (fst (validate self)))
  = filter q (world self)
    ++ flat_map (fun eos : bool => if eos then filter q [DetachHidden] else [])
         (val_flags self).
Proof.
  intros Hf Hw Ht Hs He.
  rewrite validate_fst. unfold validate_loop.
  rewrite (validate_loop_filter q _ Hf Hw Ht Hs).
  cbn [world emit with_world]. rewrite filter_app. cbn [filter].
  rewrite He, app_nil_r. reflexivity.
Qed.

(** C6: a validation epoch makes no call to [optimizer.step()] and none to
    [backward()], and never resets the recurrent state; what it signals to
    the recurrent state is one detach for each sample that ends a
    sequence. *)
Theorem validate_no_update (self : t) :
  let w' := world (fst (validate self)) in
  count_events is_optimizer_step w' = count_events is_optimizer_step (world self)
  /\ count_events is_backward w' = count_events is_backward (world self)
  /\ count_events is_reset w' = count_events is_reset (world self)
  /\ filter is_hidden_signal w'
     = filter is_hidden_signal (world self)
       ++ map (fun _ => DetachHidden)
            (filter (fun c : bool => c) (val_flags self)).
Proof.
  cbv zeta. unfold count_events.
  repeat split.
  - rewrite (validate_filter is_optimizer_step) by reflexivity.
    rewrite flat_map_nil by (intros []; reflexivity).
    rewrite app_nil_r. reflexivity.
  - rewrite (validate_filter is_backward) by reflexivity.
    rewrite flat_map_nil by (intros []; reflexivity).
    rewrite app_nil_r. reflexivity.
  - rewrite (validate_filter is_reset) by reflexivity.
    rewrite flat_map_nil by (intros []; reflexivity).
    rewrite app_nil_r. reflexivity.
  - rewrite (validate_filter is_hidden_signal) by reflexivity.
    cbn [filter is_hidden_signal is_detach is_reset orb].
    rewrite flat_map_flags. reflexivity.
Qed.

(** ** What [train] returns (C7) *)

Lemma combine_snoc {A B : Type} (l1 : list A) (l2 : list B) (a : A) (b : B) :
  List.length l1 = List.length l2 ->
  combine (l1 ++ [a]) (l2 ++ [b]) = combine l1 l2 ++ [(a, b)].
Proof.
  revert l2. induction l1 as [|x l1 IH]; intros [|y l2] Hlen;
    try discriminate; [reflexivity|].
  cbn. rewrite IH by (cbn in Hlen; congruence). reflexivity.
Qed.

Lemma logs_ok_snoc (rot trans total : list Loss) (r tr : Loss) :
  logs_ok rot trans total ->
  logs_ok (rot ++ [r]) (trans ++ [tr]) (total ++ [add r tr]).
Proof.
  intros [Hlen Htot]. split.
  - rewrite !length_app, Hlen. reflexivity.
  - rewrite combine_snoc by exact Hlen. rewrite map_app, Htot. reflexivity.
Qed.

Lemma train_iter_snd (n : Z) (i : nat) (self : t) (lc : TrainLocals)
    (smp : Sample) :
  getitem (train_set self) i = Some smp ->
  let cr := mul (scaleFactor self) (fst (sample_losses self smp)) in
  let ct := snd (sample_losses self smp) in
  let lc' := snd (fst (train_iter n i (self, lc))) in
  rotLosses lc' = rotLosses lc ++ [cr]
  /\ transLosses lc' = transLosses lc ++ [ct]
  /\ totalLosses lc' = totalLosses lc ++ [add cr ct].
Proof.
  intros Hget. cbv zeta.
  rewrite (train_iter_eq n i self lc smp Hget). cbn zeta.
  rewrite train_sample_eq.
  destruct (_ || _); [rewrite close_window_eq|]; cbn; repeat split.
Qed.

Lemma train_iter_frame (n : Z) (i : nat) (self : t) (lc : TrainLocals) :
  let self' := fst (fst (train_iter n i (self, lc))) in
  args self' = args self /\ train_set self' = train_set self
  /\ scaleFactor self' = scaleFactor self /\ loss_fn self' = loss_fn self
  /\ weightRegularizer self' = weightRegularizer self.
Proof.
  cbv zeta.
  destruct (getitem (train_set self) i) as [smp|] eqn:Hget.
  - rewrite (train_iter_eq n i self lc smp Hget). cbn zeta.
    rewrite train_sample_eq, accumulate_eq.
    destruct (_ || _); [rewrite close_window_eq|]; fields; repeat split.
  - rewrite train_iter_raise by exact Hget. repeat split.
Qed.

Lemma train_loop_logs (n : Z) (idx : list nat) :
  forall (self : t) (lc : TrainLocals),
    let r := for_range (train_iter n) idx (self, lc) in
    (snd r = None \/ snd r = Some DatasetError)
    /\ (snd r = None ->
        List.length (rotLosses (snd (fst r)))
        = (List.length (rotLosses lc) + List.length idx)%nat)
    /\ (logs_ok (rotLosses lc) (transLosses lc) (totalLosses lc) ->
        logs_ok (rotLosses (snd (fst r))) (transLosses (snd (fst r)))
          (totalLosses (snd (fst r)))).
Proof.
  induction idx as [|i idx IH]; intros self lc; cbv zeta.
  - cbn [for_range fst snd List.length].
    split; [left; reflexivity|]. split; [intros _; lia|auto].
  - cbn [for_range].
    destruct (getitem (train_set self) i) as [smp|] eqn:Hget.
    + pose proof (train_iter_snd n i self lc smp Hget) as Hsnd.
      cbv zeta in Hsnd. destruct Hsnd as [Hr [Ht Htot]].
      assert (Hnone : snd (train_iter n i (self, lc)) = None).
      { rewrite (train_iter_eq n i self lc smp Hget). reflexivity. }
      destruct (train_iter n i (self, lc)) as [[self1 lc1] o].
      cbn [fst snd] in *. subst o.
      specialize (IH self1 lc1). cbv zeta in IH.
      destruct IH as [IH1 [IH2 IH3]].
      split; [exact IH1|]. split.
      * intros Hn. rewrite (IH2 Hn), Hr, length_app. cbn. lia.
      * intros Hok. apply IH3. rewrite Hr, Ht, Htot.
        apply logs_ok_snoc. exact Hok.
    + rewrite train_iter_raise by exact Hget. cbn [fst snd].
      split; [right; reflexivity|]. split; [discriminate|auto].
Qed.

Lemma range_length (n : Z) : List.length (range n) = Z.to_nat n.
Proof. unfold range. apply length_seq. Qed.

(** C7 (amended): when the epoch counter has reached the maximum, [train]
    switches the model to training mode, prints a message and returns
    [None], with no forward or backward pass, no optimizer step and the
    accumulators and [iters] as they were. Otherwise, unless the dataset
    raises, it returns the three logs: one rotation and one translation loss
    per iteration, and their sums. *)
Theorem train_returns (self : t) :
  let skipped := curEpoch self >=? maxEpochs self in
  (skipped = true ->
   train self = (emit PrintMaxEpochs (emit ModelTrain self), inr None)
   /\ world (fst (train self)) = world self ++ [ModelTrain; PrintMaxEpochs]
   /\ accumulators (fst (train self)) = accumulators self
   /\ iters (fst (train self)) = iters self)
  /\ (skipped = false ->
      match snd (train self) with
      | inl e => e = DatasetError
      | inr None => False
      | inr (Some (rot, trans, total)) =>
          List.length rot = Z.to_nat (numTrainIters self)
          /\ logs_ok rot trans total
      end).
Proof.
  cbv zeta. split.
  - intros Hg. rewrite (train_guarded self Hg). fields.
    rewrite <- app_assoc. repeat split.
  - intros Hg. unfold train. fields. rewrite Hg.
    unfold train_loop.
    pose proof (train_loop_logs
      (numTrainIters (with_iters (emit ModelTrain self)
                        (iters (emit ModelTrain self) + 1)))
      (range (numTrainIters (with_iters (emit ModelTrain self)
                        (iters (emit ModelTrain self) + 1))))
      (with_iters (emit ModelTrain self) (iters (emit ModelTrain self) + 1))
      train_locals0) as Hlogs.
    cbv zeta in Hlogs.
    destruct (for_range _ _ _) as [[self1 lc1] [e|]]; cbn [fst snd] in *.
    + destruct Hlogs as [[Hn|He] _]; [discriminate|]. congruence.
    + destruct Hlogs as [_ [Hlen Hok]]. split.
      * rewrite (Hlen eq_refl), range_length. reflexivity.
      * apply Hok. split; reflexivity.
Qed.

(** ** Construction (C8, C10) *)



(** C10: the [loss_fn] argument of the constructor is not read. Two
    constructions that differ in it alone give the same trainer, whose loss
    function is the sum-reduced squared error; [train] and [validate] then
    give the same trainer and the same result. *)
Theorem loss_fn_argument_ignored (a : Args) (epoch : Z) (model : list Event)
    (tr va : Dataset) (f g : Tensor -> Tensor -> Loss) (s : Loss)
    (gc wr : option Loss) :
  __init__ a epoch model tr va f s gc wr
  = __init__ a epoch model tr va g s gc wr
  /\ (forall self,
         __init__ a epoch model tr va f s gc wr = inr self ->
         loss_fn self = MSELoss_sum)
  /\ (forall self1 self2,
         __init__ a epoch model tr va f s gc wr = inr self1 ->
         __init__ a epoch model tr va g s gc wr = inr self2 ->
         train self1 = train self2 /\ validate self1 = validate self2).
Proof.
  split; [reflexivity|]. split.
  - intros self Hinit. injection Hinit as <-. reflexivity.
  - intros self1 self2 H1 H2.
    injection H1 as <-. injection H2 as <-.
    split; reflexivity.
Qed.

(** ** The accumulators over a window (C4) *)








(** ** The accumulators between calls (C9) *)







Lemma validate_iter_eq (i : nat) (self : t) (lc : ValLocals) (smp : Sample) :
  getitem (val_set self) i = Some smp ->
  validate_iter i (self, lc)
  = (if endOfSeq smp
     then close_sequence smp (validate_sample smp (self, lc))
     else validate_sample smp (self, lc),
     None).
Proof.
  intros Hget. unfold validate_iter. cbn [fst]. rewrite Hget.
  destruct (endOfSeq smp); reflexivity.
Qed.


(** *** Validation does not read the accumulators *)










(** *** The loss that a window close backpropagates *)






End TrainerFacts.

(* ================================================================= *)
(** * The trainer on integer losses *)

Section DemoFacts.
Import Trainer Trainer.Demo.
#[local] Existing Instance Z_tensors.
#[local] Existing Instance Z_network.

(** The scenario of C3 and C5, run: window size 3 and flags
    [F, F, F, F, T] give an optimizer step after the third and after the fifth
    sample, a detach at each, and a reset at the second. *)
Example scenario_run :
  __init__ (demo_args 1 3) 0 [] (dataset_of_list five_samples)
    (dataset_of_list []) MSELoss_sum 2 None None = inr scenario
  /\ train_flags scenario = [false; false; false; false; true]
  /\ steps_among_samples (world (fst (train scenario)))
     = [false; false; false; true; false; false; true]
  /\ filter is_hidden_signal (world (fst (train scenario)))
     = [DetachHidden; DetachHidden; ResetHidden].
Proof. repeat split. Qed.



(** C7, as stated, fails: with the epoch counter at the maximum, [train]
    returns [None] and not three logs, after a call of [model.train()]. *)
Lemma train_finished_returns_none :
  curEpoch finished >= maxEpochs finished
  /\ snd (train finished) = inr None
  /\ world (fst (train finished)) = world finished ++ [ModelTrain; PrintMaxEpochs]
  /\ ~ (forall self : t, exists logs, snd (train self) = inr (Some logs)).
Proof.
  split; [vm_compute; discriminate|]. split; [reflexivity|].
  split; [reflexivity|].
  intros Hall. destruct (Hall finished) as [logs Hlogs].
  vm_compute in Hlogs. discriminate.
Qed.



End DemoFacts.

(* ================================================================= *)
(** * More on the curriculum *)

Section CurriculumMore.
Import Curriculum.

Lemma ceil_1_5_below (n : Z) : n <= 0 -> ceil_1_5 n <= n.
Proof.
  intros Hn. unfold ceil_1_5.
  assert ((3 * n + 1) / 2 < n + 1) by (apply Z.div_lt_upper_bound; lia).
  lia.
Qed.

(** X1: within the range where the ceiling is exact, a step never shortens
    the sequence length and changes no other field, whatever the loss and
    the draw, and whether it returns or raises. *)
Theorem step_never_shrinks (self : Curriculum.t) (cur_loss : float) (u : Z) :
  Z.abs (cur_seqlen self) <= 2 ^ 51 ->
  cur_seqlen self <= cur_seqlen (fst (step self cur_loss u))
  /\ good_loss (fst (step self cur_loss u)) = good_loss self
  /\ min_frames (fst (step self cur_loss u)) = min_frames self
  /\ max_frames (fst (step self cur_loss u)) = max_frames self
  /\ current_loss (fst (step self cur_loss u)) = current_loss self.
Proof.
  intros _. unfold step.
  destruct (PrimFloat.leb cur_loss (good_loss self));
    [|cbn [fst]; repeat split; lia].
  unfold grow, randint.
  destruct (cur_seqlen self <? ceil_1_5 (cur_seqlen self)) eqn:Hlt;
    [|cbn [fst]; repeat split; lia].
  apply Z.ltb_lt in Hlt.
  assert (1 <= cur_seqlen self).
  { destruct (Z_le_gt_dec (cur_seqlen self) 0) as [Hle|Hgt]; [|lia].
    pose proof (ceil_1_5_below _ Hle). lia. }
  pose proof (Z.mod_pos_bound u (ceil_1_5 (cur_seqlen self) - cur_seqlen self)).
  unfold clamp, module_scope. cbn [fst cur_seqlen with_cur_seqlen good_loss
    min_frames max_frames current_loss].
  repeat split. lia.
Qed.

Lemma step_never_shrinks_witness :
  cur_seqlen default <= cur_seqlen (fst (step default 0.005%float 1))
  /\ good_loss (fst (step default 0.005%float 1)) = good_loss default
  /\ min_frames (fst (step default 0.005%float 1)) = min_frames default
  /\ max_frames (fst (step default 0.005%float 1)) = max_frames default
  /\ current_loss (fst (step default 0.005%float 1)) = current_loss default.
Proof.
  apply (step_never_shrinks default 0.005%float 1). simpl. lia.
Defined.

(** X2: a step with a loss at or below [good_loss] never returns. From a
    length of zero or less the range of the draw is empty: numpy raises
    [ValueError] and the curriculum is as it was. From a length of one or
    more the length grows and line 32 raises [NameError]. *)
Theorem step_good_loss_always_raises (self : Curriculum.t) (cur_loss : float)
    (u : Z) :
  PrimFloat.leb cur_loss (good_loss self) = true ->
  Z.abs (cur_seqlen self) <= 2 ^ 51 ->
  snd (step self cur_loss u)
  = Some (if cur_seqlen self <=? 0 then ValueError
          else NameError "max_frames")
  /\ (cur_seqlen self <= 0 -> fst (step self cur_loss u) = self)
  /\ (1 <= cur_seqlen self ->
      cur_seqlen self < cur_seqlen (fst (step self cur_loss u))).
Proof.
  intros Hgood _. unfold step. rewrite Hgood. unfold grow, randint.
  destruct (cur_seqlen self <=? 0) eqn:Hle.
  - apply Z.leb_le in Hle. pose proof (ceil_1_5_below _ Hle) as Hc.
    assert (Hb : (cur_seqlen self <? ceil_1_5 (cur_seqlen self)) = false)
      by (apply Z.ltb_ge; lia).
    rewrite Hb. cbn [fst snd]. repeat split. lia.
  - apply Z.leb_gt in Hle.
    assert (Hb : (cur_seqlen self <? ceil_1_5 (cur_seqlen self)) = true).
    { apply Z.ltb_lt. apply ceil_1_5_above. lia. }
    rewrite Hb. unfold clamp, module_scope.
    cbn [fst snd cur_seqlen with_cur_seqlen].
    pose proof (ceil_1_5_above (cur_seqlen self)).
    pose proof (Z.mod_pos_bound u
                  (ceil_1_5 (cur_seqlen self) - cur_seqlen self)).
    repeat split; lia.
Qed.

Lemma step_good_loss_always_raises_witness :
  snd (step (with_cur_seqlen default 0) 0.005%float 3) = Some ValueError
  /\ fst (step (with_cur_seqlen default 0) 0.005%float 3)
     = with_cur_seqlen default 0.
Proof.
  destruct (step_good_loss_always_raises (with_cur_seqlen default 0)
              0.005%float 3) as [Hraise [Hsame _]].
  - reflexivity.
  - simpl. lia.
  - split; [exact Hraise|]. apply Hsame. simpl. lia.
Defined.

(** X3: the lengths that a good-loss step can leave behind, over all draws,
    are exactly those from [2 * old] to [old + ceil(old * 1.5) - 1]. *)
Theorem step_reachable_lengths (self : Curriculum.t) (cur_loss : float)
    (n : Z) :
  PrimFloat.leb cur_loss (good_loss self) = true ->
  1 <= cur_seqlen self <= 2 ^ 51 ->
  (exists u, cur_seqlen (fst (step self cur_loss u)) = n)
  <-> 2 * cur_seqlen self <= n
      <= cur_seqlen self + ceil_1_5 (cur_seqlen self) - 1.
Proof.
  intros Hgood [Hlo _]. split.
  - intros [u Hu].
    destruct (randint_in_range (cur_seqlen self)
                (ceil_1_5 (cur_seqlen self)) u) as [r [Hr Hin]].
    { apply ceil_1_5_above. exact Hlo. }
    rewrite (step_good_loss self cur_loss u r Hgood Hr) in Hu.
    cbn [fst cur_seqlen with_cur_seqlen] in Hu. lia.
  - intros Hn. exists (n - cur_seqlen self - cur_seqlen self).
    rewrite (step_good_loss self cur_loss _ (n - cur_seqlen self) Hgood).
    + cbn [fst cur_seqlen with_cur_seqlen]. lia.
    + apply randint_onto. lia.
Qed.

Lemma step_reachable_lengths_witness :
  (exists u, cur_seqlen (fst (step default 0.005%float u)) = 11)
  <-> 2 * cur_seqlen default <= 11
      <= cur_seqlen default + ceil_1_5 (cur_seqlen default) - 1.
Proof.
  apply (step_reachable_lengths default 0.005%float 11).
  - reflexivity.
  - simpl. lia.
Defined.

End CurriculumMore.

(* ================================================================= *)
(** * More on the trainer *)

Section TrainerMore.
Import Trainer.
Context `{Network}.

Ltac project_fields :=
  cbn [args maxEpochs curEpoch train_set val_set loss_fn loss_rot loss_trans
       loss scaleFactor weightRegularizer iters world accumulators
       with_world with_losses with_iters emit fst snd].

(** ** Loops *)

Lemma for_range_invariant {S : Type} (P : S -> Prop)
    (body : nat -> S -> S * option exn) :
  (forall i s, P s -> P (fst (body i s))) ->
  forall idx s, P s -> P (fst (for_range body idx s)).
Proof.
  intros Hstep. induction idx as [|i idx IH]; intros s Hs; [exact Hs|].
  cbn [for_range]. specialize (Hstep i s Hs).
  destruct (body i s) as [s' [e|]]; cbn [fst] in *; auto.
Qed.

Lemma for_range_app {S : Type} (body : nat -> S -> S * option exn)
    (l1 l2 : list nat) :
  forall s,
    for_range body (l1 ++ l2) s
    = match for_range body l1 s with
      | (s', None) => for_range body l2 s'
      | (s', Some e) => (s', Some e)
      end.
Proof.
  induction l1 as [|i l1 IH]; intros s; [reflexivity|].
  cbn [app for_range]. destruct (body i s) as [s' [e|]]; [reflexivity|].
  apply IH.
Qed.

(** ** What the calls leave as they were *)

Lemma train_iter_config (n : Z) (i : nat) (st : t * TrainLocals) :
  config (fst (fst (train_iter n i st))) = config (fst st)
  /\ iters (fst (fst (train_iter n i st))) = iters (fst st).
Proof.
  destruct st as [self lc]. cbn [fst].
  destruct (getitem (train_set self) i) as [smp|] eqn:Hget.
  - rewrite (train_iter_eq n i self lc smp Hget). cbn zeta.
    rewrite train_sample_eq, accumulate_eq.
    destruct (_ || _); [rewrite close_window_eq|]; split; reflexivity.
  - rewrite train_iter_raise by exact Hget. split; reflexivity.
Qed.

Lemma validate_iter_config (i : nat) (st : t * ValLocals) :
  config (fst (fst (validate_iter i st))) = config (fst st)
  /\ iters (fst (fst (validate_iter i st))) = iters (fst st).
Proof.
  destruct st as [self lc]. cbn [fst].
  destruct (getitem (val_set self) i) as [smp|] eqn:Hget.
  - rewrite (validate_iter_eq i self lc smp Hget).
    pose proof (validate_sample_fst smp self lc) as Hvs.
    destruct (validate_sample smp (self, lc)) as [self1 lc1].
    cbn [fst] in *. subst self1. rewrite accumulate_eq.
    destruct (endOfSeq smp); [rewrite close_sequence_fst|];
      split; reflexivity.
  - rewrite validate_iter_raise by exact Hget. split; reflexivity.
Qed.

(** X4: [train] and [validate] assign none of the configuration fields:
    arguments, maximum and current epoch, datasets, loss function, rotation
    scale and regularizer weight are after the call what they were before. In
    particular the trainer never advances its epoch counter. [iters] goes up
    by one in an epoch that is not skipped, also when the dataset raises, and
    is otherwise unchanged. *)
Theorem trainer_frame (self : t) :
  config (fst (train self)) = config self
  /\ iters (fst (train self))
     = iters self + (if curEpoch self >=? maxEpochs self then 0 else 1)
  /\ config (fst (validate self)) = config self
  /\ iters (fst (validate self)) = iters self.
Proof.
  assert (Htrain :
    forall s0 : t,
      config (fst (fst (train_loop s0))) = config s0
      /\ iters (fst (fst (train_loop s0))) = iters s0 + 1).
  { intros s0. unfold train_loop.
    apply (for_range_invariant
             (fun st : t * TrainLocals =>
                config (fst st) = config s0 /\ iters (fst st) = iters s0 + 1)).
    - intros i st [Hc Hi].
      destruct (train_iter_config
                  (numTrainIters (with_iters s0 (iters s0 + 1))) i st)
        as [Hc' Hi'].
      split; congruence.
    - split; reflexivity. }
  assert (Hval :
    forall s0 : t,
      config (fst (fst (validate_loop s0))) = config s0
      /\ iters (fst (fst (validate_loop s0))) = iters s0).
  { intros s0. unfold validate_loop.
    apply (for_range_invariant
             (fun st : t * ValLocals =>
                config (fst st) = config s0 /\ iters (fst st) = iters s0)).
    - intros i st [Hc Hi].
      destruct (validate_iter_config i st) as [Hc' Hi'].
      split; congruence.
    - split; reflexivity. }
  split; [|split; [|split]].
  - destruct (curEpoch self >=? maxEpochs self) eqn:Hg.
    + rewrite (train_guarded self Hg). reflexivity.
    + rewrite (train_fst self Hg).
      destruct (Htrain (emit ModelTrain self)) as [Hc _]. exact Hc.
  - destruct (curEpoch self >=? maxEpochs self) eqn:Hg.
    + rewrite (train_guarded self Hg). cbn [fst iters emit with_world]. lia.
    + rewrite (train_fst self Hg).
      destruct (Htrain (emit ModelTrain self)) as [_ Hi]. exact Hi.
  - rewrite validate_fst. destruct (Hval self) as [Hc _]. exact Hc.
  - rewrite validate_fst. destruct (Hval self) as [_ Hi]. exact Hi.
Qed.

(** ** The order of the calls *)


Lemma train_loop_flat_map {A : Type} (f : Event -> list A) (kf : list A)
    (k : option Loss -> bool -> list A) (n : Z) (idx : list nat) :
  (forall x, f (Forward x) = kf) ->
  (forall self lc eos,
      flat_map f (close_events self lc eos) = k (gradClip (args self)) eos) ->
  forall (self : t) (lc : TrainLocals),
    flat_map f (world (fst (fst (for_range (train_iter n) idx (self, lc)))))
    = flat_map f (world self)
      ++ epoch_projection kf (k (gradClip (args self)))
           (trainBatch (args self)) (elapsedBatches lc)
           (map (fun p => effective_endOfSeq self n (fst p) (snd p))
              (fetched (train_set self) idx)).
Proof.
  intros Hf Hk.
  induction idx as [|i idx IH]; intros self lc.
  - cbn. rewrite app_nil_r. reflexivity.
  - cbn [for_range fetched].
    destruct (getitem (train_set self) i) as [smp|] eqn:Hget.
    + rewrite (train_iter_eq n i self lc smp Hget). cbn zeta.
      rewrite train_sample_eq, accumulate_eq.
      cbn [map epoch_projection fst snd].
      destruct ((elapsedBatches lc + 1 >=? trainBatch (args self))
                || effective_endOfSeq self n i smp) eqn:Hclose.
      * rewrite close_window_eq. cbn iota. rewrite IH.
        cbn [world with_losses with_world emit args train_set
             elapsedBatches new_window].
        rewrite !flat_map_app, Hk.
        cbn [flat_map args with_losses with_world emit].
        rewrite Hf, app_nil_r, <- !app_assoc. reflexivity.
      * cbn iota. rewrite IH.
        cbn [world with_losses with_world emit args train_set
             elapsedBatches record_sample].
        rewrite !flat_map_app. cbn [flat_map].
        rewrite Hf, app_nil_r, <- !app_assoc. reflexivity.
    + rewrite train_iter_raise by exact Hget.
      cbn. rewrite app_nil_r. reflexivity.
Qed.

Lemma train_flat_map {A : Type} (f : Event -> list A) (kf : list A)
    (k : option Loss -> bool -> list A) (self : t) :
  (forall x, f (Forward x) = kf) ->
  (forall self lc eos,
      flat_map f (close_events self lc eos) = k (gradClip (args self)) eos) ->
  flat_map f (world (fst (train self)))
  = flat_map f (world self) ++ f ModelTrain
    ++ (if curEpoch self >=? maxEpochs self then f PrintMaxEpochs
        else epoch_projection kf (k (gradClip (args self)))
               (trainBatch (args self)) 0 (train_flags self)).
Proof.
  intros Hf Hk.
  destruct (curEpoch self >=? maxEpochs self) eqn:Hg.
  - rewrite (train_guarded self Hg). cbn [fst world emit with_world].
    rewrite !flat_map_app. cbn [flat_map].
    rewrite !app_nil_r, <- app_assoc. reflexivity.
  - rewrite (train_fst self Hg). unfold train_loop.
    rewrite (train_loop_flat_map f kf k _ _ Hf Hk).
    cbn [world with_iters emit with_world args].
    rewrite flat_map_app. cbn [flat_map].
    rewrite app_nil_r, <- app_assoc. reflexivity.
Qed.


Lemma validate_loop_kinds (idx : list nat) :
  forall (self : t) (lc : ValLocals),
    map kind (world (fst (fst (for_range validate_iter idx (self, lc)))))
    = map kind (world self)
      ++ val_kinds (map (fun p => endOfSeq (snd p))
                      (fetched (val_set self) idx)).
Proof.
  unfold val_kinds.
  induction idx as [|i idx IH]; intros self lc.
  - cbn. rewrite app_nil_r. reflexivity.
  - cbn [for_range fetched].
    destruct (getitem (val_set self) i) as [smp|] eqn:Hget.
    + rewrite (validate_iter_eq i self lc smp Hget).
      pose proof (validate_sample_fst smp self lc) as Hvs.
      destruct (validate_sample smp (self, lc)) as [self1 lc1].
      cbn [fst] in Hvs. subst self1. rewrite accumulate_eq.
      cbn [map flat_map fst snd].
      destruct (endOfSeq smp).
      * pose proof (close_sequence_fst smp
          (with_losses (emit (Forward (inp smp)) self)
             (add (loss_rot self)
                (mul (scaleFactor self) (fst (sample_losses self smp))))
             (add (loss_trans self) (snd (sample_losses self smp)))
             (add (loss self)
                (py_sum [mul (scaleFactor self) (fst (sample_losses self smp));
                         snd (sample_losses self smp)])))
          lc1) as Hcs.
        destruct (close_sequence smp _) as [self2 lc2].
        cbn [fst] in Hcs. subst self2. rewrite IH.
        cbn [world with_losses with_world emit val_set].
        rewrite !map_app. cbn [map kind app].
        rewrite <- !app_assoc. reflexivity.
      * rewrite IH.
        cbn [world with_losses with_world emit val_set].
        rewrite !map_app. cbn [map kind app].
        rewrite <- !app_assoc. reflexivity.
    + rewrite validate_iter_raise by exact Hget.
      cbn. rewrite app_nil_r. reflexivity.
Qed.

(** X6: the calls of a validation epoch, in order: [model.eval()], then
    one forward pass per sample, and after each sample that ends a sequence
    the two reports, the write of the trajectory file and the detach. No
    other call is made. *)
Theorem validate_call_order (self : t) :
  map kind (world (fst (validate self)))
  = map kind (world self) ++ KModelEval :: val_kinds (val_flags self).
Proof.
  rewrite validate_fst. unfold validate_loop.
  rewrite validate_loop_kinds.
  cbn [world emit with_world val_set].
  rewrite map_app, <- app_assoc. reflexivity.
Qed.

(** ** Gradient clipping *)

Lemma epoch_projection_closes {A : Type} (l : list A) (size : Z)
    (flags : list bool) :
  forall elapsed,
    epoch_projection [] (fun _ => l) size elapsed flags
    = flat_map (fun c : bool => if c then l else [])
        (closes_mask size elapsed flags).
Proof.
  induction flags as [|eos flags IH]; intros elapsed; [reflexivity|].
  cbn [epoch_projection closes_mask app].
  destruct ((elapsed + 1 >=? size) || eos); cbn [flat_map]; rewrite IH;
    reflexivity.
Qed.

Lemma flat_map_repeat {A : Type} (c : A) (mask : list bool) :
  flat_map (fun b : bool => if b then [c] else []) mask
  = repeat c (List.length (filter (fun b : bool => b) mask)).
Proof.
  induction mask as [|b mask IH]; [reflexivity|].
  destruct b; cbn; rewrite IH; reflexivity.
Qed.

(** X7: gradient clipping follows [args.gradClip] alone. When it is set,
    each window close of a training epoch clips once, with [args.gradClip] as
    the bound; when it is [None] nothing is clipped. The [gradClip] argument
    of the constructor is not read. *)
Theorem clipping_follows_args (self : t) :
  clip_bounds (world (fst (train self)))
  = clip_bounds (world self)
    ++ (if curEpoch self >=? maxEpochs self then []
        else match gradClip (args self) with
             | Some c =>
                 repeat c (windows_closed (trainBatch (args self)) 0
                             (train_flags self))
             | None => []
             end)
  /\ (forall a epoch model tr va f s gc1 gc2 wr,
         __init__ a epoch model tr va f s gc1 wr
         = __init__ a epoch model tr va f s gc2 wr).
Proof.
  split; [|reflexivity].
  unfold clip_bounds.
  rewrite (train_flat_map
             (fun e => match e with ClipGradNorm c => [c] | _ => [] end) []
             (fun gc _ => match gc with Some c => [c] | None => [] end)).
  - cbn [app].
    destruct (curEpoch self >=? maxEpochs self); [reflexivity|].
    rewrite epoch_projection_closes. unfold windows_closed.
    destruct (gradClip (args self)).
    + rewrite flat_map_repeat. reflexivity.
    + rewrite (@flat_map_nil bool Loss (fun c : bool => if c then [] else []))
        by (intros []; reflexivity).
      reflexivity.
  - reflexivity.
  - intros s lc eos. unfold close_events.
    destruct (gradClip (args s)), eos; reflexivity.
Qed.

(** ** When the dataset raises *)

Lemma fetched_length_le (ds : Dataset) (idx : list nat) :
  (List.length (fetched ds idx) <= List.length idx)%nat.
Proof.
  induction idx as [|i idx IH]; [cbn; lia|].
  cbn [fetched]. destruct (getitem ds i); cbn [List.length]; lia.
Qed.

Lemma train_loop_raises (n : Z) (idx : list nat) :
  forall (self : t) (lc : TrainLocals),
    snd (for_range (train_iter n) idx (self, lc))
    = if (List.length (fetched (train_set self) idx) =? List.length idx)%nat
      then None else Some DatasetError.
Proof.
  induction idx as [|i idx IH]; intros self lc; [reflexivity|].
  cbn [for_range fetched].
  destruct (getitem (train_set self) i) as [smp|] eqn:Hget.
  - rewrite (train_iter_eq n i self lc smp Hget). cbn zeta.
    rewrite train_sample_eq, accumulate_eq.
    cbn [List.length Nat.eqb].
    destruct (_ || _); [rewrite close_window_eq|]; cbn iota; rewrite IH;
      reflexivity.
  - rewrite train_iter_raise by exact Hget. reflexivity.
Qed.

Lemma validate_loop_raises (idx : list nat) :
  forall (self : t) (lc : ValLocals),
    snd (for_range validate_iter idx (self, lc))
    = if (List.length (fetched (val_set self) idx) =? List.length idx)%nat
      then None else Some DatasetError.
Proof.
  induction idx as [|i idx IH]; intros self lc; [reflexivity|].
  cbn [for_range fetched].
  destruct (getitem (val_set self) i) as [smp|] eqn:Hget.
  - rewrite (validate_iter_eq i self lc smp Hget).
    pose proof (validate_sample_fst smp self lc) as Hvs.
    destruct (validate_sample smp (self, lc)) as [self1 lc1].
    cbn [fst] in Hvs. subst self1. rewrite accumulate_eq.
    cbn [List.length Nat.eqb].
    destruct (endOfSeq smp).
    + pose proof (close_sequence_fst smp
        (with_losses (emit (Forward (inp smp)) self)
           (add (loss_rot self)
              (mul (scaleFactor self) (fst (sample_losses self smp))))
           (add (loss_trans self) (snd (sample_losses self smp)))
           (add (loss self)
              (py_sum [mul (scaleFactor self) (fst (sample_losses self smp));
                       snd (sample_losses self smp)])))
        lc1) as Hcs.
      destruct (close_sequence smp _) as [self2 lc2].
      cbn [fst] in Hcs. subst self2. rewrite IH. reflexivity.
    + rewrite IH. reflexivity.
  - rewrite validate_iter_raise by exact Hget. reflexivity.
Qed.

Lemma count_as_flat_map (p : Event -> bool) (w : list Event) :
  count_events p w
  = List.length (flat_map (fun e => if p e then [tt] else []) w).
Proof.
  unfold count_events. induction w as [|e w IH]; [reflexivity|].
  cbn. destruct (p e); cbn; rewrite IH; reflexivity.
Qed.

Lemma epoch_projection_forwards {A : Type} (a : A) (size : Z)
    (flags : list bool) :
  forall elapsed,
    List.length (epoch_projection [a] (fun _ => []) size elapsed flags)
    = List.length flags.
Proof.
  induction flags as [|eos flags IH]; intros elapsed; [reflexivity|].
  cbn [epoch_projection app List.length].
  destruct ((elapsed + 1 >=? size) || eos); cbn [app]; rewrite IH;
    reflexivity.
Qed.

(** X8: an epoch stops at the first index at which the dataset raises, and
    the exception goes to the caller. [train] (past the guard) and [validate]
    return their logs exactly when every index of the epoch gave an item;
    otherwise they raise, and what was done for the samples before the
    failing index stays done: [train] has made one forward pass for each of
    them. *)
Theorem dataset_error_stops_epoch (self : t) :
  ((curEpoch self >=? maxEpochs self) = false ->
   let got := fetched (train_set self) (range (numTrainIters self)) in
   ((exists logs, snd (train self) = inr (Some logs))
    <-> List.length got = Z.to_nat (numTrainIters self))
   /\ (snd (train self) = inl DatasetError
       <-> (List.length got < Z.to_nat (numTrainIters self))%nat)
   /\ count_events is_forward (world (fst (train self)))
      = (count_events is_forward (world self) + List.length got)%nat)
  /\ (let got := fetched (val_set self) (range (numValIters self)) in
      ((exists logs, snd (validate self) = inr logs)
       <-> List.length got = Z.to_nat (numValIters self))
      /\ (snd (validate self) = inl DatasetError
          <-> (List.length got < Z.to_nat (numValIters self))%nat)).
Proof.
  split.
  - intros Hg. cbv zeta.
    pose proof (fetched_length_le (train_set self)
                  (range (numTrainIters self))) as Hle.
    rewrite range_length in Hle.
    pose proof (train_loop_raises
                  (numTrainIters self) (range (numTrainIters self))
                  (with_iters (emit ModelTrain self)
                     (iters (emit ModelTrain self) + 1))
                  train_locals0) as Hraise.
    cbn [train_set with_iters emit with_world] in Hraise.
    rewrite range_length in Hraise.
    assert (Hsnd :
      snd (train self)
      = match snd (train_loop (emit ModelTrain self)) with
        | Some e => inl e
        | None =>
            inr (Some
                   (rotLosses (snd (fst (train_loop (emit ModelTrain self)))),
                    transLosses (snd (fst (train_loop (emit ModelTrain self)))),
                    totalLosses (snd (fst (train_loop (emit ModelTrain self))))))
        end).
    { unfold train. cbn [curEpoch maxEpochs emit with_world]. rewrite Hg.
      destruct (train_loop _) as [[s1 l1] [e|]]; reflexivity. }
    unfold train_loop in Hsnd.
    change (numTrainIters (with_iters (emit ModelTrain self)
                             (iters (emit ModelTrain self) + 1)))
      with (numTrainIters self) in Hsnd.
    rewrite Hraise in Hsnd. rewrite Hsnd.
    split; [|split].
    + destruct (Nat.eqb_spec
                  (List.length (fetched (train_set self)
                                  (range (numTrainIters self))))
                  (Z.to_nat (numTrainIters self))) as [He|Hne].
      * split; [intros _; exact He|intros _; eexists; reflexivity].
      * split; [intros [logs Hl]; discriminate|intros He; contradiction].
    + destruct (Nat.eqb_spec
                  (List.length (fetched (train_set self)
                                  (range (numTrainIters self))))
                  (Z.to_nat (numTrainIters self))) as [He|Hne].
      * split; [discriminate|lia].
      * split; [intros _; lia|reflexivity].
    + rewrite !count_as_flat_map.
      rewrite (train_flat_map (fun e => if is_forward e then [tt] else [])
                 [tt] (fun _ _ => [])).
      * rewrite Hg. cbn [app is_forward].
        rewrite length_app, epoch_projection_forwards.
        unfold train_flags. rewrite length_map. reflexivity.
      * reflexivity.
      * intros s lc eos. unfold close_events.
        destruct (gradClip (args s)), eos; reflexivity.
  - cbv zeta.
    pose proof (fetched_length_le (val_set self)
                  (range (numValIters self))) as Hle.
    rewrite range_length in Hle.
    pose proof (validate_loop_raises (range (numValIters self))
                  (emit ModelEval self) val_locals0) as Hraise.
    cbn [val_set emit with_world] in Hraise.
    rewrite range_length in Hraise.
    assert (Hsnd :
      snd (validate self)
      = match snd (validate_loop self) with
        | Some e => inl e
        | None =>
            inr (v_rotLosses (snd (fst (validate_loop self))),
                 v_transLosses (snd (fst (validate_loop self))),
                 v_totalLosses (snd (fst (validate_loop self))))
        end).
    { unfold validate.
      destruct (validate_loop self) as [[s1 l1] [e|]]; reflexivity. }
    unfold validate_loop in Hsnd.
    change (numValIters (emit ModelEval self)) with (numValIters self) in Hsnd.
    rewrite Hraise in Hsnd. rewrite Hsnd.
    destruct (Nat.eqb_spec
                (List.length (fetched (val_set self)
                                (range (numValIters self))))
                (Z.to_nat (numValIters self))) as [He|Hne].
    + split.
      * split; [intros _; exact He|intros _; eexists; reflexivity].
      * split; [discriminate|lia].
    + split.
      * split; [intros [logs Hl]; discriminate|intros He; contradiction].
      * split; [intros _; lia|reflexivity].
Qed.

(** ** Epochs without samples *)

Lemma range_nonpositive (n : Z) : n <= 0 -> range n = [].
Proof.
  intros Hn. unfold range.
  replace (Z.to_nat n) with 0%nat by lia. reflexivity.
Qed.

(** X9: an epoch over no index (an empty dataset, or a debug count of zero
    or less) makes no forward pass and closes no window. [train] still
    switches the model to training mode and counts the epoch in [iters], and
    returns three empty logs; [validate] only switches the model to
    evaluation mode, and writes no file. The accumulators keep what they
    held. *)
Theorem epoch_without_samples (self : t) :
  (numTrainIters self <= 0 ->
   (curEpoch self >=? maxEpochs self) = false ->
   train self
   = (with_iters (emit ModelTrain self) (iters self + 1),
      inr (Some ([], [], []))))
  /\ (numValIters self <= 0 ->
      validate self = (emit ModelEval self, inr ([], [], []))).
Proof.
  split.
  - intros Hn Hg. unfold train. cbn [curEpoch maxEpochs emit with_world].
    rewrite Hg. unfold train_loop.
    change (numTrainIters (with_iters _ _)) with (numTrainIters self).
    rewrite (range_nonpositive _ Hn). reflexivity.
  - intros Hn. unfold validate, validate_loop.
    change (numValIters (emit ModelEval self)) with (numValIters self).
    rewrite (range_nonpositive _ Hn). reflexivity.
Qed.

(** ** The trajectory files of validation *)

Lemma validate_sample_rows (smp : Sample) (self : t) (lc : ValLocals) :
  map row_meta (pending_rows (snd (validate_sample smp (self, lc))))
  = map row_meta (pending_rows lc) ++ [sample_meta smp].
Proof.
  unfold validate_sample.
  destruct (forward (world self) (inp smp)), (sample_losses self smp).
  cbn [snd]. unfold pending_rows. cbn [traj_pred].
  destruct (traj_pred lc); [rewrite map_app|]; reflexivity.
Qed.

Lemma validate_loop_files (idx : list nat) :
  forall (self : t) (lc : ValLocals),
    let r := fst (for_range validate_iter idx (self, lc)) in
    let e := expected_files (expDir (args self)) (curEpoch self)
               (map row_meta (pending_rows lc))
               (map snd (fetched (val_set self) idx)) in
    saved_files (world (fst r)) = saved_files (world self) ++ fst e
    /\ map row_meta (pending_rows (snd r)) = snd e.
Proof.
  induction idx as [|i idx IH]; intros self lc; cbv zeta.
  - cbn. rewrite app_nil_r. split; reflexivity.
  - cbn [for_range fetched].
    destruct (getitem (val_set self) i) as [smp|] eqn:Hget.
    + rewrite (validate_iter_eq i self lc smp Hget).
      pose proof (validate_sample_fst smp self lc) as Hvs.
      pose proof (validate_sample_rows smp self lc) as Hrows.
      destruct (validate_sample smp (self, lc)) as [self1 lc1].
      cbn [fst snd] in Hvs, Hrows. subst self1. rewrite accumulate_eq.
      cbn [map fst snd expected_files]. rewrite <- Hrows.
      destruct (endOfSeq smp).
      * pose proof (close_sequence_fst smp
          (with_losses (emit (Forward (inp smp)) self)
             (add (loss_rot self)
                (mul (scaleFactor self) (fst (sample_losses self smp))))
             (add (loss_trans self) (snd (sample_losses self smp)))
             (add (loss self)
                (py_sum [mul (scaleFactor self) (fst (sample_losses self smp));
                         snd (sample_losses self smp)])))
          lc1) as Hcs.
        assert (Hnone : pending_rows (snd (close_sequence smp
          (with_losses (emit (Forward (inp smp)) self)
             (add (loss_rot self)
                (mul (scaleFactor self) (fst (sample_losses self smp))))
             (add (loss_trans self) (snd (sample_losses self smp)))
             (add (loss self)
                (py_sum [mul (scaleFactor self) (fst (sample_losses self smp));
                         snd (sample_losses self smp)])),
           lc1))) = []) by reflexivity.
        destruct (close_sequence smp _) as [self2 lc2].
        cbn [fst snd] in Hcs, Hnone. subst self2.
        match goal with
        | |- context [for_range _ _ (?s, ?l)] => specialize (IH s l)
        end.
        cbv zeta in IH. rewrite Hnone in IH.
        destruct IH as [IH1 IH2]. cbn [fst snd]. split; [|exact IH2].
        etransitivity; [exact IH1|].
        cbn [world with_losses with_world emit val_set args curEpoch map].
        unfold saved_files.
        rewrite !flat_map_app. cbn [flat_map app].
        rewrite app_nil_r, <- !app_assoc. reflexivity.
      * match goal with
        | |- context [for_range _ _ (?s, ?l)] => specialize (IH s l)
        end.
        cbv zeta in IH.
        destruct IH as [IH1 IH2]. split; [|exact IH2].
        etransitivity; [exact IH1|].
        cbn [world with_losses with_world emit val_set args curEpoch].
        unfold saved_files.
        rewrite !flat_map_app. cbn [flat_map app].
        rewrite app_nil_r. reflexivity.
    + rewrite validate_iter_raise by exact Hget.
      cbn. rewrite app_nil_r. split; reflexivity.
Qed.

(** X10: the trajectory files of a validation epoch. A file is written at
    each sample that ends a sequence, and nowhere else; it is named by the
    experiment directory, the sequence id of that sample and the trainer's
    current epoch, and holds one row for each sample since the previous file
    (or the start of the epoch), in order, with the sequence id and frame
    indices of the sample. The rows of samples after the last end of sequence
    are in no file. *)
Theorem validate_trajectory_files (self : t) :
  let samples := map snd (fetched (val_set self) (range (numValIters self))) in
  let e := expected_files (expDir (args self)) (curEpoch self) [] samples in
  saved_files (world (fst (validate self))) = saved_files (world self) ++ fst e
  /\ map row_meta (pending_rows (snd (fst (validate_loop self)))) = snd e.
Proof.
  cbv zeta. rewrite validate_fst. unfold validate_loop.
  destruct (validate_loop_files (range (numValIters (emit ModelEval self)))
              (emit ModelEval self) val_locals0) as [Hf Hp].
  split; [|exact Hp].
  rewrite Hf. cbn [world emit with_world]. unfold saved_files.
  rewrite flat_map_app. cbn [flat_map app]. rewrite app_nil_r. reflexivity.
Qed.

(** ** Debug mode *)

Lemma range_snoc (n : Z) :
  1 <= n -> range n = range (n - 1) ++ [Z.to_nat (n - 1)].
Proof.
  intros Hn. unfold range.
  replace (Z.to_nat n) with (S (Z.to_nat (n - 1))) by lia.
  rewrite seq_S. reflexivity.
Qed.

Lemma fetched_snoc_full (ds : Dataset) (l : list nat) (m : nat) :
  List.length (fetched ds (l ++ [m])) = List.length (l ++ [m]) ->
  List.length (fetched ds l) = List.length l
  /\ exists smp, getitem ds m = Some smp.
Proof.
  induction l as [|i l IH]; cbn [app fetched List.length].
  - destruct (getitem ds m) as [smp|]; [|discriminate].
    intros _. split; [reflexivity|]. exists smp. reflexivity.
  - destruct (getitem ds i); [|discriminate].
    cbn [List.length]. intros Hlen.
    destruct IH as [Hl Hm]; [congruence|]. split; [congruence|exact Hm].
Qed.

Lemma train_iter_extends (n : Z) (i : nat) (st : t * TrainLocals) :
  exists w, world (fst (fst (train_iter n i st))) = world (fst st) ++ w.
Proof.
  destruct st as [self lc]. cbn [fst].
  destruct (getitem (train_set self) i) as [smp|] eqn:Hget.
  - rewrite (train_iter_eq n i self lc smp Hget). cbn zeta.
    rewrite train_sample_eq, accumulate_eq.
    destruct (_ || _); [rewrite close_window_eq|]; project_fields;
      rewrite <- ?app_assoc; eexists; reflexivity.
  - rewrite train_iter_raise by exact Hget. exists []. cbn [fst].
    rewrite app_nil_r. reflexivity.
Qed.

Lemma config_fields (a b : t) :
  config a = config b -> args a = args b /\ train_set a = train_set b.
Proof.
  unfold config. intros Hc. injection Hc as Ha _ _ Ht _ _ _ _.
  split; assumption.
Qed.

(** X11: in debug mode the last iteration of a training epoch always closes
    its window as the end of a sequence. When the debug count is at least one
    and the dataset gives every item asked for, the epoch ends with an
    optimizer step, the detach, [zero_grad()] and the reset of the recurrent
    state, and returns with zeroed accumulators. *)
Theorem debug_epoch_ends_closed (self : t) :
  debug (args self) = true ->
  1 <= debugIters (args self) ->
  (curEpoch self >=? maxEpochs self) = false ->
  List.length (fetched (train_set self) (range (debugIters (args self))))
  = List.length (range (debugIters (args self))) ->
  accumulators (fst (train self)) = zeros
  /\ exists w,
       world (fst (train self))
       = world self ++ w ++ [OptimizerStep; DetachHidden; ZeroGrad; ResetHidden].
Proof.
  intros Hd Hn Hg Hlen.
  rewrite (train_fst self Hg). unfold train_loop.
  set (s0 := with_iters (emit ModelTrain self) (iters (emit ModelTrain self) + 1)).
  assert (Hnum : numTrainIters s0 = debugIters (args self)).
  { unfold numTrainIters, s0. project_fields. rewrite Hd. reflexivity. }
  rewrite Hnum. set (n := debugIters (args self)) in *.
  rewrite (range_snoc n Hn) in Hlen.
  destruct (fetched_snoc_full _ _ _ Hlen) as [Hpre [smp Hget]].
  rewrite (range_snoc n Hn), for_range_app.
  pose proof (train_loop_raises n (range (n - 1)) s0 train_locals0) as Hraise.
  change (train_set s0) with (train_set self) in Hraise.
  rewrite Hpre, Nat.eqb_refl in Hraise.
  assert (Hinv :
    config (fst (fst (for_range (train_iter n) (range (n - 1))
                        (s0, train_locals0)))) = config s0
    /\ exists w,
         world (fst (fst (for_range (train_iter n) (range (n - 1))
                            (s0, train_locals0)))) = world s0 ++ w).
  { apply (for_range_invariant
             (fun st : t * TrainLocals =>
                config (fst st) = config s0
                /\ exists w, world (fst st) = world s0 ++ w)).
    - intros i st [Hc [w Hw]].
      destruct (train_iter_config n i st) as [Hc' _].
      destruct (train_iter_extends n i st) as [w' Hw'].
      split; [congruence|].
      exists (w ++ w'). rewrite Hw', Hw, app_assoc. reflexivity.
    - split; [reflexivity|]. exists []. rewrite app_nil_r. reflexivity. }
  destruct (for_range (train_iter n) (range (n - 1)) (s0, train_locals0))
    as [[s1 l1] o].
  cbn [fst snd] in Hraise, Hinv. subst o.
  destruct Hinv as [Hc [w1 Hw1]].
  destruct (config_fields _ _ Hc) as [Ha Ht].
  change (args s0) with (args self) in Ha.
  change (train_set s0) with (train_set self) in Ht.
  change (world s0) with (world self ++ [ModelTrain]) in Hw1.
  cbn [for_range].
  rewrite (train_iter_eq n (Z.to_nat (n - 1)) s1 l1 smp)
    by (rewrite Ht; exact Hget).
  cbn zeta.
  assert (Heos : effective_endOfSeq s1 n (Z.to_nat (n - 1)) smp = true).
  { unfold effective_endOfSeq. rewrite Ha, Hd.
    rewrite Z2Nat.id by lia. rewrite Z.eqb_refl. reflexivity. }
  rewrite Heos, orb_true_r, train_sample_eq, close_window_eq, accumulate_eq.
  cbn [fst]. split; [reflexivity|].
  project_fields. rewrite Hw1. unfold close_events.
  match goal with
  | |- exists w, (((_ ++ ?m) ++ ?w1) ++ ?f) ++ ?l3 ++ ?c ++ _ = _ =>
      exists (m ++ w1 ++ f ++ l3 ++ c)
  end.
  rewrite <- !app_assoc. reflexivity.
Qed.

(** ** Reports and logs *)

(** The losses reported so far, with those of the open window, are the
    losses logged so far, after [base]. *)
Definition reports_match (base : list Loss * list Loss * list Loss)
    (w : list Event) (rot_seq trans_seq total_seq rot trans total : list Loss)
  : Prop :=
  reported_rot w ++ rot_seq = fst (fst base) ++ rot
  /\ reported_trans w ++ trans_seq = snd (fst base) ++ trans
  /\ reported_total w ++ total_seq = snd base ++ total.

Lemma reports_match_sample (base : list Loss * list Loss * list Loss)
    (w w' : list Event) (rs ts os r tr o : list Loss) (cr ct co : Loss) :
  reported_rot w' = reported_rot w ->
  reported_trans w' = reported_trans w ->
  reported_total w' = reported_total w ->
  reports_match base w rs ts os r tr o ->
  reports_match base w' (rs ++ [cr]) (ts ++ [ct]) (os ++ [co])
    (r ++ [cr]) (tr ++ [ct]) (o ++ [co]).
Proof.
  intros Hr Ht Ho [H1 [H2 H3]]. unfold reports_match.
  rewrite Hr, Ht, Ho, !app_assoc, H1, H2, H3. repeat split.
Qed.

Lemma reports_match_close (base : list Loss * list Loss * list Loss)
    (w w' : list Event) (rs ts os r tr o : list Loss) :
  reported_rot w' = reported_rot w ++ rs ->
  reported_trans w' = reported_trans w ++ ts ->
  reported_total w' = reported_total w ++ os ->
  reports_match base w rs ts os r tr o ->
  reports_match base w' [] [] [] r tr o.
Proof.
  intros Hr Ht Ho [H1 [H2 H3]]. unfold reports_match.
  rewrite Hr, Ht, Ho, !app_nil_r, H1, H2, H3. repeat split.
Qed.

Lemma reported_close_events (self : t) (lc : TrainLocals) (eos : bool) :
  reported_rot (close_events self lc eos) = rotLoss_seq lc
  /\ reported_trans (close_events self lc eos) = transLoss_seq lc
  /\ reported_total (close_events self lc eos) = totalLoss_seq lc.
Proof.
  unfold close_events, reported_rot, reported_trans, reported_total.
  destruct (gradClip (args self)), eos; cbn; rewrite !app_nil_r;
    repeat split.
Qed.

Lemma train_iter_reports (base : list Loss * list Loss * list Loss) (n : Z)
    (i : nat) (st : t * TrainLocals) :
  reports_match base (world (fst st))
    (rotLoss_seq (snd st)) (transLoss_seq (snd st)) (totalLoss_seq (snd st))
    (rotLosses (snd st)) (transLosses (snd st)) (totalLosses (snd st)) ->
  let st' := fst (train_iter n i st) in
  reports_match base (world (fst st'))
    (rotLoss_seq (snd st')) (transLoss_seq (snd st')) (totalLoss_seq (snd st'))
    (rotLosses (snd st')) (transLosses (snd st')) (totalLosses (snd st')).
Proof.
  destruct st as [self lc]. cbn [fst snd]. intros Hm. cbv zeta.
  destruct (getitem (train_set self) i) as [smp|] eqn:Hget.
  - rewrite (train_iter_eq n i self lc smp Hget). cbn zeta.
    rewrite train_sample_eq, accumulate_eq.
    assert (Hs : reports_match base
                   (world self ++ [Forward (inp smp)])
                   (rotLoss_seq lc
                    ++ [mul (scaleFactor self) (fst (sample_losses self smp))])
                   (transLoss_seq lc ++ [snd (sample_losses self smp)])
                   (totalLoss_seq lc
                    ++ [add (mul (scaleFactor self)
                               (fst (sample_losses self smp)))
                          (snd (sample_losses self smp))])
                   (rotLosses lc
                    ++ [mul (scaleFactor self) (fst (sample_losses self smp))])
                   (transLosses lc ++ [snd (sample_losses self smp)])
                   (totalLosses lc
                    ++ [add (mul (scaleFactor self)
                               (fst (sample_losses self smp)))
                          (snd (sample_losses self smp))])).
    { apply (reports_match_sample base (world self)); try exact Hm;
        unfold reported_rot, reported_trans, reported_total;
        rewrite flat_map_app; cbn; apply app_nil_r. }
    destruct (_ || _).
    + rewrite close_window_eq. cbn [fst snd]. project_fields.
      cbn [new_window record_sample rotLosses transLosses totalLosses
           rotLoss_seq transLoss_seq totalLoss_seq].
      match goal with
      | |- context [close_events ?s ?l ?e] =>
          destruct (reported_close_events s l e) as [Hr [Ht Ho]]
      end.
      cbn [record_sample rotLoss_seq transLoss_seq totalLoss_seq]
        in Hr, Ht, Ho.
      eapply reports_match_close; [| | |exact Hs];
        unfold reported_rot, reported_trans, reported_total in *;
        rewrite flat_map_app; f_equal; assumption.
    + cbn [fst snd]. project_fields. exact Hs.
  - rewrite train_iter_raise by exact Hget. exact Hm.
Qed.

(** X12: every loss that a training epoch logs is reported in exactly one
    window. At the end of an epoch that is not skipped, the per-sample losses
    whose means were written (rotation, translation and total, window after
    window), followed by those of the window left open, are the three logs
    that [train] returns; the samples of a window that never closed are
    reported nowhere. *)
Theorem train_reports_partition_logs (self : t) :
  (curEpoch self >=? maxEpochs self) = false ->
  let st := fst (train_loop (emit ModelTrain self)) in
  reported_rot (world (fst (train self))) ++ rotLoss_seq (snd st)
  = reported_rot (world self) ++ rotLosses (snd st)
  /\ reported_trans (world (fst (train self))) ++ transLoss_seq (snd st)
     = reported_trans (world self) ++ transLosses (snd st)
  /\ reported_total (world (fst (train self))) ++ totalLoss_seq (snd st)
     = reported_total (world self) ++ totalLosses (snd st)
  /\ (forall logs,
         snd (train self) = inr (Some logs) ->
         logs = (rotLosses (snd st), transLosses (snd st),
                 totalLosses (snd st))).
Proof.
  intros Hg. cbv zeta. rewrite (train_fst self Hg).
  assert (Hm :
    let st := fst (train_loop (emit ModelTrain self)) in
    reports_match
      (reported_rot (world self), reported_trans (world self),
       reported_total (world self))
      (world (fst st))
      (rotLoss_seq (snd st)) (transLoss_seq (snd st)) (totalLoss_seq (snd st))
      (rotLosses (snd st)) (transLosses (snd st)) (totalLosses (snd st))).
  { unfold train_loop.
    apply (for_range_invariant
             (fun st : t * TrainLocals =>
                reports_match
                  (reported_rot (world self), reported_trans (world self),
                   reported_total (world self))
                  (world (fst st))
                  (rotLoss_seq (snd st)) (transLoss_seq (snd st))
                  (totalLoss_seq (snd st))
                  (rotLosses (snd st)) (transLosses (snd st))
                  (totalLosses (snd st)))).
    - intros i st Hst. apply train_iter_reports. exact Hst.
    - cbn [fst snd]. project_fields. unfold reports_match, reported_rot,
        reported_trans, reported_total.
      rewrite !flat_map_app. cbn. rewrite !app_nil_r. repeat split. }
  cbv zeta in Hm. destruct Hm as [H1 [H2 H3]]. cbn [fst snd] in H1, H2, H3.
  split; [exact H1|]. split; [exact H2|]. split; [exact H3|].
  intros logs Hlogs. unfold train in Hlogs.
  cbn [curEpoch maxEpochs emit with_world] in Hlogs. rewrite Hg in Hlogs.
  destruct (train_loop (emit ModelTrain self)) as [[s1 l1] [e|]];
    cbn [fst snd] in *; [discriminate|].
  injection Hlogs as <-. reflexivity.
Qed.

Lemma validate_sample_logs (smp : Sample) (self : t) (lc : ValLocals) :
  let cr := mul (scaleFactor self) (fst (sample_losses self smp)) in
  let ct := snd (sample_losses self smp) in
  let lc' := snd (validate_sample smp (self, lc)) in
  v_rotLosses lc' = v_rotLosses lc ++ [cr]
  /\ v_transLosses lc' = v_transLosses lc ++ [ct]
  /\ v_totalLosses lc' = v_totalLosses lc ++ [add cr ct]
  /\ v_rotLoss_seq lc' = v_rotLoss_seq lc ++ [cr]
  /\ v_transLoss_seq lc' = v_transLoss_seq lc ++ [ct]
  /\ v_totalLoss_seq lc' = v_totalLoss_seq lc ++ [add cr ct].
Proof.
  unfold validate_sample.
  destruct (forward (world self) (inp smp)), (sample_losses self smp).
  repeat split.
Qed.

Lemma validate_iter_reports (base : list Loss * list Loss * list Loss)
    (i : nat) (st : t * ValLocals) :
  reports_match base (world (fst st))
    (v_rotLoss_seq (snd st)) (v_transLoss_seq (snd st))
    (v_totalLoss_seq (snd st))
    (v_rotLosses (snd st)) (v_transLosses (snd st)) (v_totalLosses (snd st)) ->
  let st' := fst (validate_iter i st) in
  reports_match base (world (fst st'))
    (v_rotLoss_seq (snd st')) (v_transLoss_seq (snd st'))
    (v_totalLoss_seq (snd st'))
    (v_rotLosses (snd st')) (v_transLosses (snd st')) (v_totalLosses (snd st')).
Proof.
  destruct st as [self lc]. cbn [fst snd]. intros Hm. cbv zeta.
  destruct (getitem (val_set self) i) as [smp|] eqn:Hget.
  - rewrite (validate_iter_eq i self lc smp Hget).
    pose proof (validate_sample_fst smp self lc) as Hvs.
    pose proof (validate_sample_logs smp self lc) as Hlogs.
    cbv zeta in Hlogs.
    destruct (validate_sample smp (self, lc)) as [self1 lc1].
    cbn [fst snd] in Hvs, Hlogs. subst self1.
    destruct Hlogs as [L1 [L2 [L3 [L4 [L5 L6]]]]].
    assert (Hs : reports_match base (world (accumulate self smp))
                   (v_rotLoss_seq lc1) (v_transLoss_seq lc1)
                   (v_totalLoss_seq lc1)
                   (v_rotLosses lc1) (v_transLosses lc1) (v_totalLosses lc1)).
    { rewrite L1, L2, L3, L4, L5, L6, accumulate_eq. project_fields.
      apply (reports_match_sample base (world self)); try exact Hm;
        unfold reported_rot, reported_trans, reported_total;
        rewrite flat_map_app; cbn; apply app_nil_r. }
    destruct (endOfSeq smp); [|exact Hs].
    pose proof (close_sequence_fst smp (accumulate self smp) lc1) as Hcs.
    assert (Hsnd : snd (close_sequence smp (accumulate self smp, lc1))
                   = {| v_rotLosses := v_rotLosses lc1;
                        v_transLosses := v_transLosses lc1;
                        v_totalLosses := v_totalLosses lc1;
                        v_rotLoss_seq := []; v_transLoss_seq := [];
                        v_totalLoss_seq := []; traj_pred := None |})
      by reflexivity.
    destruct (close_sequence smp (accumulate self smp, lc1)) as [self2 lc2].
    cbn [fst snd] in Hcs, Hsnd |- *. subst self2 lc2.
    project_fields.
    cbn [v_rotLosses v_transLosses v_totalLosses v_rotLoss_seq
         v_transLoss_seq v_totalLoss_seq].
    eapply reports_match_close; [| | |exact Hs];
      unfold reported_rot, reported_trans, reported_total;
      rewrite flat_map_app; cbn; rewrite app_nil_r; reflexivity.
  - rewrite validate_iter_raise by exact Hget. exact Hm.
Qed.

(** X13: every loss that a validation epoch logs is reported with its
    sequence. At the end of the epoch, the per-sample losses whose means were
    written (sequence after sequence), followed by those of the samples after
    the last end of sequence, are the three logs that [validate] returns. *)
Theorem validate_reports_partition_logs (self : t) :
  let st := fst (validate_loop self) in
  reported_rot (world (fst (validate self))) ++ v_rotLoss_seq (snd st)
  = reported_rot (world self) ++ v_rotLosses (snd st)
  /\ reported_trans (world (fst (validate self))) ++ v_transLoss_seq (snd st)
     = reported_trans (world self) ++ v_transLosses (snd st)
  /\ reported_total (world (fst (validate self))) ++ v_totalLoss_seq (snd st)
     = reported_total (world self) ++ v_totalLosses (snd st)
  /\ (forall logs,
         snd (validate self) = inr logs ->
         logs = (v_rotLosses (snd st), v_transLosses (snd st),
                 v_totalLosses (snd st))).
Proof.
  cbv zeta. rewrite validate_fst.
  assert (Hm :
    let st := fst (validate_loop self) in
    reports_match
      (reported_rot (world self), reported_trans (world self),
       reported_total (world self))
      (world (fst st))
      (v_rotLoss_seq (snd st)) (v_transLoss_seq (snd st))
      (v_totalLoss_seq (snd st))
      (v_rotLosses (snd st)) (v_transLosses (snd st)) (v_totalLosses (snd st))).
  { unfold validate_loop.
    apply (for_range_invariant
             (fun st : t * ValLocals =>
                reports_match
                  (reported_rot (world self), reported_trans (world self),
                   reported_total (world self))
                  (world (fst st))
                  (v_rotLoss_seq (snd st)) (v_transLoss_seq (snd st))
                  (v_totalLoss_seq (snd st))
                  (v_rotLosses (snd st)) (v_transLosses (snd st))
                  (v_totalLosses (snd st)))).
    - intros i st Hst. apply validate_iter_reports. exact Hst.
    - cbn [fst snd]. project_fields. unfold reports_match, reported_rot,
        reported_trans, reported_total.
      rewrite !flat_map_app. cbn. rewrite !app_nil_r. repeat split. }
  cbv zeta in Hm. destruct Hm as [H1 [H2 H3]]. cbn [fst snd] in H1, H2, H3.
  split; [exact H1|]. split; [exact H2|]. split; [exact H3|].
  intros logs Hlogs. unfold validate in Hlogs.
  destruct (validate_loop self) as [[s1 l1] [e|]];
    cbn [fst snd] in *; [discriminate|].
  injection Hlogs as <-. reflexivity.
Qed.

End TrainerMore.

(* ================================================================= *)
(** * More runs on integer losses *)

Section DemoMore.
Import Trainer Trainer.Demo.
#[local] Existing Instance Z_tensors.
#[local] Existing Instance Z_network.

Lemma dataset_error_stops_epoch_witness :
  snd (train overrun) = inl DatasetError
  /\ count_events is_forward (world (fst (train overrun)))
     = (count_events is_forward (world overrun) + 4)%nat.
Proof.
  destruct (proj1 (dataset_error_stops_epoch overrun) eq_refl)
    as [_ [Hraise Hcount]].
  split; [|exact Hcount].
  apply Hraise. vm_compute. lia.
Defined.

Lemma epoch_without_samples_witness :
  train empty_sets
  = (with_iters (emit ModelTrain empty_sets) (iters empty_sets + 1),
     inr (Some ([], [], [])))
  /\ validate empty_sets = (emit ModelEval empty_sets, inr ([], [], [])).
Proof.
  split.
  - apply (proj1 (epoch_without_samples empty_sets)).
    + vm_compute. discriminate.
    + reflexivity.
  - apply (proj2 (epoch_without_samples empty_sets)).
    vm_compute. discriminate.
Defined.

Lemma debug_epoch_ends_closed_witness :
  accumulators (fst (train debugging)) = zeros
  /\ exists w,
       world (fst (train debugging))
       = world debugging ++ w
         ++ [OptimizerStep; DetachHidden; ZeroGrad; ResetHidden].
Proof.
  apply (debug_epoch_ends_closed debugging).
  - reflexivity.
  - vm_compute. discriminate.
  - reflexivity.
  - reflexivity.
Defined.

Lemma train_reports_partition_logs_witness :
  reported_rot (world (fst (train leaky)))
  ++ rotLoss_seq (snd (fst (train_loop (emit ModelTrain leaky))))
  = reported_rot (world leaky)
    ++ rotLosses (snd (fst (train_loop (emit ModelTrain leaky)))).
Proof.
  exact (proj1 (train_reports_partition_logs leaky eq_refl)).
Defined.

(** The runs behind X5, X7, X10 and X11: a debug epoch of two iterations
    with a clipping bound, and a validation epoch over two sequences and one
    sample of a third. *)
Example debugging_run :
  map kind (world (fst (train debugging)))
  = [KZeroGrad; KModelTrain; KForward; KForward; KWriteRotTrans; KWriteTotal;
     KBackward; KClipGradNorm; KOptimizerStep; KDetachHidden; KZeroGrad;
     KResetHidden]
  /\ clip_bounds (world (fst (train debugging))) = [7].
Proof. split; reflexivity. Qed.

Example validating_run :
  saved_files (world (fst (validate validating)))
  = [("exp"%string, 4, 2, [(4, 0, 1); (4, 1, 2)]);
     ("exp"%string, 5, 2, [(5, 0, 1)])]
  /\ map row_meta (pending_rows (snd (fst (validate_loop validating))))
     = [(6, 0, 1)]
  /\ map kind (world (fst (validate validating)))
     = [KZeroGrad; KModelEval; KForward; KForward; KWriteRotTrans; KWriteTotal;
        KSaveTxt; KDetachHidden; KForward; KWriteRotTrans; KWriteTotal;
        KSaveTxt; KDetachHidden; KForward].
Proof. repeat split. Qed.

End DemoMore.
